(** * logjam: a line logger whose output heats up with the logging rate

    A shallow embedding of [jam.go] (package [logjam]) and the proofs of its
    specification.

    Conventions of the embedding:
    - Go's [string] is [String.string] (a sequence of bytes), Go's [[]byte]
      is [list byte]; the conversion [[]byte(s)] is [list_byte_of_string].
    - Go's [int] and [int64] are [Z]; additions are written with their
      two's-complement wrap-around ([int] is 64 bits wide on the 64-bit
      targets, which is the width modelled here).
    - [bytes.Buffer] is the list of the bytes written to it so far.
    - An [io.Writer] value is a package of the writer's current state and
      its [Write] method; the destination is assumed to be a non-nil writer
      whose [Write] returns.
    - [time.Now()] is an input of [Output]; of a [time.Time] only [Unix()]
      is used.
    - The mutex [mu] serialises the methods; the embedding is the sequential
      behaviour of one method call at a time, so [mu] has no field here. *)

From Stdlib Require Import ZArith List String Ascii Strings.Byte Bool Lia.
Import ListNotations.

Local Open Scope string_scope.
Local Open Scope list_scope.
Local Open Scope Z_scope.

(** ** Machine integers *)

Definition wrap64 (z : Z) : Z := (z + 2 ^ 63) mod 2 ^ 64 - 2 ^ 63.

Definition in_int64 (z : Z) : Prop := - 2 ^ 63 <= z < 2 ^ 63.

(** [a + b] on [int] *)
Definition int_add (a b : Z) : Z := wrap64 (a + b).

(** [a + b] on [int64] *)
Definition int64_add (a b : Z) : Z := wrap64 (a + b).

(** the conversion [int64(b)] of an [int] *)
Definition int64_of_int (b : Z) : Z := wrap64 b.

(** ** Constants

    The escape sequences are string constants; the four states are the
    [int] constants of the same [const] block, so [iota] is 4 at [cold]. *)

Definition ESC : ascii := "027"%char.
Definition LF : ascii := "010"%char.

Definition reset : string := String ESC "[0m".
Definition yellow : string := String ESC "[1;33m".
Definition red : string := String ESC "[1;31m".
Definition announcement : string := String ESC "[1;32m".

Definition cold : Z := 4.
Definition coolingDown : Z := 5.
Definition heatingUp : Z := 6.
Definition onFire : Z := 7.

(** ** bytes.Buffer *)

Definition Buffer := list byte.

Definition WriteString (buf : Buffer) (s : string) : Buffer :=
  buf ++ list_byte_of_string s.

Definition WriteBytes (buf : Buffer) (p : list byte) : Buffer := buf ++ p.

Definition WriteByte (buf : Buffer) (c : byte) : Buffer := buf ++ [c].

(** ** The color transforms *)

Definition blazing (txt : list byte) : list byte :=
  let buf : Buffer := [] in
  let buf := WriteString buf red in
  let buf := WriteBytes buf txt in
  let buf := WriteString buf reset in
  buf.

Definition heating (txt : list byte) : list byte :=
  let buf : Buffer := [] in
  let buf := WriteString buf yellow in
  let buf := WriteBytes buf txt in
  let buf := WriteString buf reset in
  buf.

Definition announce (a : string) : list byte :=
  let buf : Buffer := [] in
  let buf := WriteString buf announcement in
  let buf := WriteString buf a in
  let buf := WriteString buf reset in
  buf.

(** the body of [for i, c := range txt] in [fire], from index [i] on *)
Fixpoint fire_loop (i : Z) (txt : list byte) (buf : Buffer) : Buffer :=
  match txt with
  | [] => buf
  | c :: rest =>
      let buf :=
        if Z.land i 1 =? 0 then WriteString buf red
        else WriteString buf yellow in
      let buf := WriteByte buf c in
      fire_loop (i + 1) rest buf
  end.

Definition fire (txt : list byte) : list byte :=
  let buf : Buffer := [] in
  let buf := fire_loop 0 txt buf in
  let buf := WriteString buf reset in
  buf.

(** ** io.Writer and time.Time *)

(** [nil] is [None] *)
Definition error := option string.

Record Writer : Type := mkWriter {
  sink : Type;
  sink_state : sink;
  sink_write : sink -> list byte -> sink * (Z * error)
}.

(** [w.Write(p)]: the writer afterwards, and [(n, err)] *)
Definition Write (w : Writer) (p : list byte) : Writer * (Z * error) :=
  let '(s', r) := sink_write w (sink_state w) p in
  (mkWriter (sink w) s' (sink_write w), r).

Record Time : Type := mkTime { sec : Z; nsec : Z }.

Definition Unix (t : Time) : Z := sec t.

(** ** The logger *)

(** The field [announce] of the source is [announce'] here, as the package
    function [announce] has the name already. *)
Record Logger : Type := mkLogger {
  prefix : string;
  term : bool;
  out : Writer;
  buf : list byte;
  state : Z;
  period : Z;
  firePeriod : Z;
  rate : Z;
  rateHeatingUp : Z;
  rateOnFire : Z;
  periodsBlazing : Z;
  announce' : string;
  heat : option (list byte -> list byte)
}.

Definition set_prefix (l : Logger) (v : string) : Logger :=
  mkLogger v (term l) (out l) (buf l) (state l) (period l) (firePeriod l)
    (rate l) (rateHeatingUp l) (rateOnFire l) (periodsBlazing l)
    (announce' l) (heat l).

Definition set_out (l : Logger) (v : Writer) : Logger :=
  mkLogger (prefix l) (term l) v (buf l) (state l) (period l) (firePeriod l)
    (rate l) (rateHeatingUp l) (rateOnFire l) (periodsBlazing l)
    (announce' l) (heat l).

Definition set_buf (l : Logger) (v : list byte) : Logger :=
  mkLogger (prefix l) (term l) (out l) v (state l) (period l) (firePeriod l)
    (rate l) (rateHeatingUp l) (rateOnFire l) (periodsBlazing l)
    (announce' l) (heat l).

Definition set_state (l : Logger) (v : Z) : Logger :=
  mkLogger (prefix l) (term l) (out l) (buf l) v (period l) (firePeriod l)
    (rate l) (rateHeatingUp l) (rateOnFire l) (periodsBlazing l)
    (announce' l) (heat l).

Definition set_period (l : Logger) (v : Z) : Logger :=
  mkLogger (prefix l) (term l) (out l) (buf l) (state l) v (firePeriod l)
    (rate l) (rateHeatingUp l) (rateOnFire l) (periodsBlazing l)
    (announce' l) (heat l).

Definition set_firePeriod (l : Logger) (v : Z) : Logger :=
  mkLogger (prefix l) (term l) (out l) (buf l) (state l) (period l) v
    (rate l) (rateHeatingUp l) (rateOnFire l) (periodsBlazing l)
    (announce' l) (heat l).

Definition set_rate (l : Logger) (v : Z) : Logger :=
  mkLogger (prefix l) (term l) (out l) (buf l) (state l) (period l)
    (firePeriod l) v (rateHeatingUp l) (rateOnFire l) (periodsBlazing l)
    (announce' l) (heat l).

Definition set_rateHeatingUp (l : Logger) (v : Z) : Logger :=
  mkLogger (prefix l) (term l) (out l) (buf l) (state l) (period l)
    (firePeriod l) (rate l) v (rateOnFire l) (periodsBlazing l)
    (announce' l) (heat l).

Definition set_rateOnFire (l : Logger) (v : Z) : Logger :=
  mkLogger (prefix l) (term l) (out l) (buf l) (state l) (period l)
    (firePeriod l) (rate l) (rateHeatingUp l) v (periodsBlazing l)
    (announce' l) (heat l).

Definition set_periodsBlazing (l : Logger) (v : Z) : Logger :=
  mkLogger (prefix l) (term l) (out l) (buf l) (state l) (period l)
    (firePeriod l) (rate l) (rateHeatingUp l) (rateOnFire l) v
    (announce' l) (heat l).

Definition set_announce (l : Logger) (v : string) : Logger :=
  mkLogger (prefix l) (term l) (out l) (buf l) (state l) (period l)
    (firePeriod l) (rate l) (rateHeatingUp l) (rateOnFire l)
    (periodsBlazing l) v (heat l).

Definition set_heat (l : Logger) (v : option (list byte -> list byte))
  : Logger :=
  mkLogger (prefix l) (term l) (out l) (buf l) (state l) (period l)
    (firePeriod l) (rate l) (rateHeatingUp l) (rateOnFire l)
    (periodsBlazing l) (announce' l) v.

(** [New]: the fields the composite literal leaves out have their zero
    values. *)
Definition New (out : Writer) (prefix : string) : Logger :=
  {| out := out;
     prefix := prefix;
     term := true;
     state := cold;
     rateHeatingUp := 10;
     rateOnFire := 20;
     periodsBlazing := 5;
     buf := [];
     period := 0;
     firePeriod := 0;
     rate := 0;
     announce' := "";
     heat := None |}.

Definition SetOutput (w : Writer) (l : Logger) : Logger := set_out l w.

Definition SetHeatingUp (hup : Z) (l : Logger) : Logger :=
  set_rateHeatingUp l hup.

Definition SetOnFire (of' : Z) (l : Logger) : Logger := set_rateOnFire l of'.

Definition SetBlazing (b : Z) (l : Logger) : Logger :=
  set_periodsBlazing l (int64_of_int b).

(** [updateHeat]: a [switch] without [default]; the [break] of the [onFire]
    case leaves the [switch], so [l.rate = 0] runs after every case. *)
Definition updateHeat (now : Time) (l : Logger) : Logger :=
  let l := set_rate l (int_add (rate l) 1) in
  let period' := Unix now in
  if period l =? period' then l
  else
    (* reset *)
    let l := set_period l period' in
    let l :=
      if state l =? cold then
        let l := set_heat l None in
        if rate l >? rateHeatingUp l then
          let l := set_announce l "It's heating up!!! " in
          let l := set_state l heatingUp in
          set_heat l (Some heating)
        else l
      else if state l =? coolingDown then
        if rate l >? rateHeatingUp l then
          let l := set_heat l (Some heating) in
          set_state l heatingUp
        else if rate l <? rateHeatingUp l then
          let l := set_heat l None in
          set_state l cold
        else l
      else if state l =? heatingUp then
        let l := set_heat l (Some heating) in
        if rate l >? rateOnFire l then
          let l := set_announce l "It's on fire!!! " in
          let l := set_state l onFire in
          let l := set_firePeriod l period' in
          set_heat l (Some fire)
        else l
      else if state l =? onFire then
        let l := set_heat l (Some fire) in
        (* maybe we cooled off. *)
        if rate l <? rateOnFire l then
          let l := set_state l coolingDown in
          set_heat l (Some heating)
        else if int64_add (firePeriod l) (periodsBlazing l) <? period' then
          let l := set_announce l "Boomshakalaka!!! " in
          set_heat l (Some blazing)
        else l
      else l in
    set_rate l 0.

(** [nl := len(s) == 0 || s[len(s)-1] != '\n'] *)
Definition needs_nl (s : string) : bool :=
  (String.length s =? 0)%nat
  || match String.get (String.length s - 1) s with
     | Some c => negb (Ascii.eqb c LF)
     | None => true
     end.

(** [Output]: the logger afterwards and the error returned. *)
Definition Output (now : Time) (s : string) (l : Logger) : Logger * error :=
  let l := set_buf l [] in
  let l := updateHeat now l in
  let l :=
    if negb (announce' l =? "")%string then
      let l := set_buf l (buf l ++ announce (announce' l)) in
      set_announce l ""
    else l in
  let nl := needs_nl s in
  let l :=
    match heat l with
    | Some h =>
        if term l then set_buf l (buf l ++ h (list_byte_of_string s))
        else set_buf l (buf l ++ list_byte_of_string s)
    | None => set_buf l (buf l ++ list_byte_of_string s)
    end in
  let l := if nl then set_buf l (buf l ++ [byte_of_ascii LF]) else l in
  let '(w, (_, err)) := Write (out l) (buf l) in
  (set_out l w, err).

(** [Prefix] returns the output prefix for the logger. *)
Definition Prefix (l : Logger) : string := prefix l.

(** [SetPrefix] sets the output prefix for the logger. *)
Definition SetPrefix (prefix : string) (l : Logger) : Logger :=
  set_prefix l prefix.

(** [Writer] returns the output destination for the logger (the method
    [Writer] of the source; the type has the name here). *)
Definition WriterOf (l : Logger) : Writer := out l.

(** ** The printing methods

    They format with package [fmt], which is not part of the repository:
    its three functions are parameters.  A call either returns, or ends the
    process ([os.Exit]), or panics. *)

Inductive Outcome : Type :=
| Returned
| Exited (code : Z)
| Panicked (v : string).

Section Printing.

Variable any : Type.
Variable Sprintf : string -> list any -> string.
Variable Sprint : list any -> string.
Variable Sprintln : list any -> string.

Definition Printf (now : Time) (format : string) (v : list any)
  (l : Logger) : Logger * Outcome :=
  (fst (Output now (Sprintf format v) l), Returned).

Definition Print (now : Time) (v : list any) (l : Logger)
  : Logger * Outcome :=
  (fst (Output now (Sprint v) l), Returned).

Definition Println (now : Time) (v : list any) (l : Logger)
  : Logger * Outcome :=
  (fst (Output now (Sprintln v) l), Returned).

Definition Fatal (now : Time) (v : list any) (l : Logger)
  : Logger * Outcome :=
  (fst (Output now (Sprint v) l), Exited 1).

Definition Fatalf (now : Time) (format : string) (v : list any)
  (l : Logger) : Logger * Outcome :=
  (fst (Output now (Sprintf format v) l), Exited 1).

Definition Fatalln (now : Time) (v : list any) (l : Logger)
  : Logger * Outcome :=
  (fst (Output now (Sprintln v) l), Exited 1).

Definition Panic (now : Time) (v : list any) (l : Logger)
  : Logger * Outcome :=
  let s := Sprint v in
  (fst (Output now s l), Panicked s).

Definition Panicf (now : Time) (format : string) (v : list any)
  (l : Logger) : Logger * Outcome :=
  let s := Sprintf format v in
  (fst (Output now s l), Panicked s).

Definition Panicln (now : Time) (v : list any) (l : Logger)
  : Logger * Outcome :=
  let s := Sprintln v in
  (fst (Output now s l), Panicked s).

(** *** The public interface

    One constructor per exported method of [*Logger]; the time read by
    [time.Now()] inside [Output] is part of the call. *)

Inductive Op : Type :=
| OpSetOutput (w : Writer)
| OpSetHeatingUp (hup : Z)
| OpSetOnFire (of' : Z)
| OpSetBlazing (b : Z)
| OpOutput (now : Time) (s : string)
| OpPrintf (now : Time) (format : string) (v : list any)
| OpPrint (now : Time) (v : list any)
| OpPrintln (now : Time) (v : list any)
| OpFatal (now : Time) (v : list any)
| OpFatalf (now : Time) (format : string) (v : list any)
| OpFatalln (now : Time) (v : list any)
| OpPanic (now : Time) (v : list any)
| OpPanicf (now : Time) (format : string) (v : list any)
| OpPanicln (now : Time) (v : list any)
| OpPrefix
| OpSetPrefix (prefix : string)
| OpWriter.

Definition exec (op : Op) (l : Logger) : Logger * Outcome :=
  match op with
  | OpSetOutput w => (SetOutput w l, Returned)
  | OpSetHeatingUp hup => (SetHeatingUp hup l, Returned)
  | OpSetOnFire of' => (SetOnFire of' l, Returned)
  | OpSetBlazing b => (SetBlazing b l, Returned)
  | OpOutput now s => (fst (Output now s l), Returned)
  | OpPrintf now format v => Printf now format v l
  | OpPrint now v => Print now v l
  | OpPrintln now v => Println now v l
  | OpFatal now v => Fatal now v l
  | OpFatalf now format v => Fatalf now format v l
  | OpFatalln now v => Fatalln now v l
  | OpPanic now v => Panic now v l
  | OpPanicf now format v => Panicf now format v l
  | OpPanicln now v => Panicln now v l
  | OpPrefix => (l, Returned)
  | OpSetPrefix p => (SetPrefix p l, Returned)
  | OpWriter => (l, Returned)
  end.

(** A sequence of calls: it ends where the process exits; a panic may be
    recovered by the caller, and the logger stays usable after it. *)
Fixpoint run (ops : list Op) (l : Logger) : Logger :=
  match ops with
  | [] => l
  | op :: rest =>
      match exec op l with
      | (l', Exited _) => l'
      | (l', _) => run rest l'
      end
  end.

End Printing.

(** ** Auxiliary definitions of the specification *)

(** The logger as [Output] has it when it calls [l.out.Write(l.buf)]. *)
Definition render (now : Time) (s : string) (l : Logger) : Logger :=
  let l := set_buf l [] in
  let l := updateHeat now l in
  let l :=
    if negb (announce' l =? "")%string then
      let l := set_buf l (buf l ++ announce (announce' l)) in
      set_announce l ""
    else l in
  let nl := needs_nl s in
  let l :=
    match heat l with
    | Some h =>
        if term l then set_buf l (buf l ++ h (list_byte_of_string s))
        else set_buf l (buf l ++ list_byte_of_string s)
    | None => set_buf l (buf l ++ list_byte_of_string s)
    end in
  if nl then set_buf l (buf l ++ [byte_of_ascii LF]) else l.

(** The bytes [Output] passes to the destination's [Write]. *)
Definition written (now : Time) (s : string) (l : Logger) : list byte :=
  buf (render now s l).

(** The fields of the heat machine: state, counters, thresholds, pending
    banner and transform. *)
Definition heat_machine (l : Logger) :=
  (state l, period l, firePeriod l, rate l,
   (rateHeatingUp l, rateOnFire l, periodsBlazing l),
   announce' l, heat l).

(** The banner part of a line: the pending banner in the announcement
    color, or nothing. *)
Definition banner_part (a : string) : list byte :=
  if (a =? "")%string then [] else announce a.

(** The newline [Output] appends. *)
Definition nl_part (s : string) : list byte :=
  if needs_nl s then [byte_of_ascii LF] else [].

(** The message part of a line: the message, through the transform when
    there is one and the terminal mode is on. *)
Definition message_part (hf : option (list byte -> list byte)) (t : bool)
  (s : string) : list byte :=
  match hf with
  | Some h => if t then h (list_byte_of_string s) else list_byte_of_string s
  | None => list_byte_of_string s
  end.

(** One escape sequence around the whole text. *)
Definition solid (color : string) (txt : list byte) : list byte :=
  list_byte_of_string color ++ txt ++ list_byte_of_string reset.

(** Every byte after an escape sequence of its own, the two colors
    taking turns. *)
Fixpoint two_tone (c0 c1 : string) (txt : list byte) : list byte :=
  match txt with
  | [] => []
  | c :: rest => list_byte_of_string c0 ++ c :: two_tone c1 c0 rest
  end.

Definition count_nl (p : list byte) : nat :=
  List.length (filter (Byte.eqb (byte_of_ascii LF)) p).

(** A destination that keeps every buffer it is given, and fails every
    write when [fails] is set. *)
Definition recorder (fails : bool) : Writer :=
  mkWriter (list (list byte)) []
    (fun st p =>
       (st ++ [p],
        if fails then (0, Some "write failed")
        else (Z.of_nat (List.length p), None))).

(** [n] calls of [Output] with the same message in the second [t]. *)
Fixpoint burst (n : nat) (t : Z) (s : string) (l : Logger) : Logger :=
  match n with
  | O => l
  | S n' => burst n' t s (fst (Output (mkTime t 0) s l))
  end.

(** The lines written by successive calls of [Output]. *)
Fixpoint lines (calls : list (Z * string)) (l : Logger)
  : list (list byte) :=
  match calls with
  | [] => []
  | (t, s) :: rest =>
      written (mkTime t 0) s l
        :: lines rest (fst (Output (mkTime t 0) s l))
  end.

(** Does the byte sequence [p] start with [q]? *)
Fixpoint starts_with (q p : list byte) : bool :=
  match q, p with
  | [], _ => true
  | b :: q', c :: p' => Byte.eqb b c && starts_with q' p'
  | _ :: _, [] => false
  end.

(** The rate a per-second evaluation compares with the thresholds: the
    count of the second that ended, with the line that is being written. *)
Definition seen_rate (l : Logger) : Z := int_add (rate l) 1.

(** ** Loggers of a run

    A run with the thresholds of [New]: 11 lines in second 1, 21 lines in
    second 2, and 20 lines in each second after it. *)

Definition fresh : Logger := New (recorder false) "jam: ".

(** in [heatingUp] since second 2 *)
Definition warm : Logger := burst 21 2 "x" (burst 11 1 "x" fresh).

(** in [onFire] since second 3, at the end of second 3 *)
Definition burning : Logger := burst 20 3 "x" warm.

(** in [onFire] since second 3, at the end of second 8 *)
Definition ablaze : Logger :=
  burst 20 8 "x" (burst 20 7 "x" (burst 20 6 "x"
    (burst 20 5 "x" (burst 20 4 "x" burning)))).

(** A transform is alternating when every byte of its input follows an
    escape sequence of its own, two sequences taking turns, and is whole
    when one sequence stands before the whole input; both end in [reset]. *)
Definition alternating (h : list byte -> list byte) : Prop :=
  exists c0 c1 : string,
    c0 <> "" /\ c1 <> "" /\
    forall txt, h txt = two_tone c0 c1 txt ++ list_byte_of_string reset.

Definition whole (h : list byte -> list byte) : Prop :=
  exists c : string, c <> "" /\ forall txt, h txt = solid c txt.

(** When does an evaluation find the fire sustained? *)
Definition blazing_condition (now : Time) (l : Logger) : Prop :=
  state l = onFire
  /\ Unix now <> period l
  /\ seen_rate l >= rateOnFire l
  /\ int64_add (firePeriod l) (periodsBlazing l) < Unix now.

(** When does an evaluation enter [onFire]? *)
Definition ignition_condition (now : Time) (l : Logger) : Prop :=
  state l = heatingUp
  /\ Unix now <> period l
  /\ seen_rate l > rateOnFire l.

(** Does the message end in a newline? *)
Fixpoint ends_nl (s : string) : bool :=
  match s with
  | EmptyString => false
  | String c EmptyString => Ascii.eqb c LF
  | String _ rest => ends_nl rest
  end.

(** The transforms of the package, and no transform. *)
Definition known_heat (h : option (list byte -> list byte)) : Prop :=
  h = None \/ h = Some heating \/ h = Some fire \/ h = Some blazing.

Definition has_banner (a : string) (line : list byte) : bool :=
  starts_with (announce a) line.

Definition banner_count (a : string) (ls : list (list byte)) : nat :=
  List.length (filter (has_banner a) ls).

(** A formatter to run the printing methods with: the operands are strings,
    [Sprint] joins them, [Sprintln] puts spaces between them and a newline
    after them, and [Sprintf] with no verb in the format is the format. *)
Definition sprintf (format : string) (_ : list string) : string := format.
Definition sprint (v : list string) : string := String.concat "" v.
Definition sprintln (v : list string) : string :=
  (String.concat " " v ++ String LF "")%string.

Definition session : list (Op string) :=
  [ OpSetHeatingUp string 0;
    OpOutput string (mkTime 1 0) "a";
    OpSetPrefix string "p";
    OpPrint string (mkTime 1 0) ["b"; "c"];
    OpPanicln string (mkTime 1 0) ["d"];
    OpSetOutput string (recorder true);
    OpPrintf string (mkTime 1 0) "e" [] ].

(** ** Further definitions of the specification *)

(** The four values of [state] that [updateHeat] has a case for. *)
Definition valid_state (z : Z) : Prop :=
  z = cold \/ z = coolingDown \/ z = heatingUp \/ z = onFire.

(** The transitions of [updateHeat] that change the state. *)
Definition transitions : list (Z * Z) :=
  [ (cold, heatingUp); (coolingDown, heatingUp); (coolingDown, cold);
    (heatingUp, onFire); (onFire, coolingDown) ].

(** The transform goes with the state. *)
Definition consistent (l : Logger) : Prop :=
  (state l = cold /\ heat l = None)
  \/ (state l = coolingDown /\ heat l = Some heating)
  \/ (state l = heatingUp /\ heat l = Some heating)
  \/ (state l = onFire /\ (heat l = Some fire \/ heat l = Some blazing)).

(** Successive calls of [Output], each with the time it reads. *)
Fixpoint feed (calls : list (Time * string)) (l : Logger) : Logger :=
  match calls with
  | [] => l
  | (now, s) :: rest => feed rest (fst (Output now s l))
  end.

(** The zero value of [Logger] but for the destination: what a caller has
    who does not go through [New]. *)
Definition zero_logger (w : Writer) : Logger :=
  {| prefix := ""; term := false; out := w; buf := [];
     state := 0; period := 0; firePeriod := 0; rate := 0;
     rateHeatingUp := 0; rateOnFire := 0; periodsBlazing := 0;
     announce' := ""; heat := None |}.


(** [Output] hands [line] to the destination: the destination afterwards
    is the destination after one [Write] of [line], the error returned is
    the error of that [Write], and the buffer holds [line]. *)
Definition Output_writes (now : Time) (s : string) (l : Logger)
  (line : list byte) : Prop :=
  out (fst (Output now s l)) = fst (Write (out l) line)
  /\ snd (Output now s l) = snd (snd (Write (out l) line))
  /\ buf (fst (Output now s l)) = line.

(** Does the byte sequence end in one newline byte, and not in two? *)
Definition ends_in_one_nl (p : list byte) : bool :=
  match rev p with
  | [] => false
  | b :: before =>
      Byte.eqb b (byte_of_ascii LF)
      && match before with
         | [] => true
         | c :: _ => negb (Byte.eqb c (byte_of_ascii LF))
         end
  end.


(** * Proofs *)

(** ** Machine integers *)

Lemma wrap64_id (z : Z) : in_int64 z -> wrap64 z = z.
Proof.
  unfold in_int64, wrap64. intros H.
  rewrite Z.mod_small; lia.
Qed.

Lemma int_add_no_overflow (a : Z) :
  in_int64 a -> a < 2 ^ 63 - 1 -> int_add a 1 = a + 1.
Proof.
  unfold in_int64, int_add. intros Ha Hmax.
  apply wrap64_id. unfold in_int64. lia.
Qed.

(** ** The constructor *)

(** C9: for every destination and prefix, [New] returns a logger in state
    [cold], with the terminal mode on, the heating-up threshold 10, the
    on-fire threshold 20 and the blazing threshold 5 (and the destination
    and the prefix it was given). *)
Theorem New_defaults (w : Writer) (p : string) :
  state (New w p) = cold
  /\ term (New w p) = true
  /\ rateHeatingUp (New w p) = 10
  /\ rateOnFire (New w p) = 20
  /\ periodsBlazing (New w p) = 5
  /\ out (New w p) = w
  /\ prefix (New w p) = p.
Proof. repeat split. Qed.

(** ** The heat machine, case by case *)

Lemma updateHeat_same (now : Time) (l : Logger) :
  Unix now = period l ->
  updateHeat now l = set_rate l (int_add (rate l) 1).
Proof.
  intros H. unfold updateHeat. cbn.
  rewrite H, Z.eqb_refl. reflexivity.
Qed.

Lemma updateHeat_onFire (now : Time) (l : Logger) :
  state l = onFire -> Unix now <> period l ->
  updateHeat now l =
  let l1 :=
    set_heat (set_period (set_rate l (seen_rate l)) (Unix now)) (Some fire) in
  set_rate
    (if seen_rate l <? rateOnFire l
     then set_heat (set_state l1 coolingDown) (Some heating)
     else if int64_add (firePeriod l) (periodsBlazing l) <? Unix now
          then set_heat (set_announce l1 "Boomshakalaka!!! ") (Some blazing)
          else l1) 0.
Proof.
  intros Hs Hp. unfold updateHeat. cbn.
  destruct (Z.eqb_spec (period l) (Unix now)); [congruence|].
  rewrite Hs. reflexivity.
Qed.

Lemma updateHeat_heatingUp (now : Time) (l : Logger) :
  state l = heatingUp -> Unix now <> period l ->
  updateHeat now l =
  let l1 :=
    set_heat (set_period (set_rate l (seen_rate l)) (Unix now))
      (Some heating) in
  set_rate
    (if seen_rate l >? rateOnFire l
     then set_heat
            (set_firePeriod
               (set_state (set_announce l1 "It's on fire!!! ") onFire)
               (Unix now))
            (Some fire)
     else l1) 0.
Proof.
  intros Hs Hp. unfold updateHeat. cbn.
  destruct (Z.eqb_spec (period l) (Unix now)); [congruence|].
  rewrite Hs. reflexivity.
Qed.

(** C6: when [updateHeat] runs in the second that is being counted, the
    only change is [l.rate += 1]: state, transform, pending banner,
    [firePeriod], [period] and the thresholds (and every other field) are
    as before; short of the overflow of [int] the count is one more. *)
Theorem updateHeat_same_second (now : Time) (l : Logger) :
  Unix now = period l ->
  updateHeat now l = set_rate l (int_add (rate l) 1)
  /\ state (updateHeat now l) = state l
  /\ heat (updateHeat now l) = heat l
  /\ announce' (updateHeat now l) = announce' l
  /\ firePeriod (updateHeat now l) = firePeriod l
  /\ period (updateHeat now l) = period l
  /\ rateHeatingUp (updateHeat now l) = rateHeatingUp l
  /\ rateOnFire (updateHeat now l) = rateOnFire l
  /\ periodsBlazing (updateHeat now l) = periodsBlazing l
  /\ (in_int64 (rate l) -> rate l < 2 ^ 63 - 1 ->
      rate (updateHeat now l) = rate l + 1).
Proof.
  intros H. rewrite (updateHeat_same now l H).
  repeat split. cbn. apply int_add_no_overflow.
Qed.

Lemma updateHeat_same_second_witness :
  Unix (mkTime 8 500) = period ablaze
  /\ updateHeat (mkTime 8 500) ablaze = set_rate ablaze 20
  /\ rate (updateHeat (mkTime 8 500) ablaze) = rate ablaze + 1.
Proof.
  assert (Hp : Unix (mkTime 8 500) = period ablaze) by reflexivity.
  destruct (updateHeat_same_second (mkTime 8 500) ablaze Hp) as
    (H1 & _ & _ & _ & _ & _ & _ & _ & _ & H2).
  split; [exact Hp|]. split.
  - exact H1.
  - apply H2; vm_compute; intuition discriminate.
Defined.

(** C5: an evaluation in state [onFire] that sees a rate below
    [rateOnFire] goes to [coolingDown] with the transform [heating]; and no
    call of [updateHeat] takes [onFire] to [cold]. *)
Theorem onFire_cools_to_coolingDown (now : Time) (l : Logger) :
  state l = onFire ->
  (Unix now <> period l -> seen_rate l < rateOnFire l ->
   state (updateHeat now l) = coolingDown
   /\ heat (updateHeat now l) = Some heating)
  /\ state (updateHeat now l) <> cold.
Proof.
  intros Hs. split.
  - intros Hp Hr. rewrite (updateHeat_onFire now l Hs Hp). cbn.
    apply Z.ltb_lt in Hr. rewrite Hr. split; reflexivity.
  - destruct (Z.eq_dec (Unix now) (period l)) as [Hp | Hp].
    + rewrite (updateHeat_same now l Hp). cbn. rewrite Hs. discriminate.
    + rewrite (updateHeat_onFire now l Hs Hp). cbn.
      destruct (seen_rate l <? rateOnFire l); cbn; [discriminate|].
      destruct (int64_add (firePeriod l) (periodsBlazing l) <? Unix now);
        cbn; rewrite Hs; discriminate.
Qed.

Lemma onFire_cools_to_coolingDown_witness :
  (state (burst 3 4 "x" burning) = onFire
   /\ Unix (mkTime 5 0) <> period (burst 3 4 "x" burning)
   /\ seen_rate (burst 3 4 "x" burning) < rateOnFire (burst 3 4 "x" burning))
  /\ (state (updateHeat (mkTime 5 0) (burst 3 4 "x" burning)) = coolingDown
      /\ heat (updateHeat (mkTime 5 0) (burst 3 4 "x" burning))
         = Some heating)
  /\ state (updateHeat (mkTime 5 0) (burst 3 4 "x" burning)) <> cold.
Proof.
  assert (Hs : state (burst 3 4 "x" burning) = onFire) by reflexivity.
  assert (Hp : Unix (mkTime 5 0) <> period (burst 3 4 "x" burning))
    by (vm_compute; discriminate).
  assert (Hr : seen_rate (burst 3 4 "x" burning)
               < rateOnFire (burst 3 4 "x" burning)) by reflexivity.
  destruct (onFire_cools_to_coolingDown (mkTime 5 0) (burst 3 4 "x" burning)
              Hs) as [H1 H2].
  split; [repeat split; assumption|].
  split; [exact (H1 Hp Hr) | exact H2].
Defined.

(** ** What [updateHeat] does not touch *)

Ltac heat_branches :=
  repeat match goal with
         | |- context [if ?c then _ else _] => destruct c
         end.

Lemma updateHeat_set_buf (now : Time) (l : Logger) (b : list byte) :
  updateHeat now (set_buf l b) = set_buf (updateHeat now l) b.
Proof. unfold updateHeat. cbn. heat_branches; reflexivity. Qed.

Lemma updateHeat_set_out (now : Time) (l : Logger) (w : Writer) :
  updateHeat now (set_out l w) = set_out (updateHeat now l) w.
Proof. unfold updateHeat. cbn. heat_branches; reflexivity. Qed.

Lemma updateHeat_set_prefix (now : Time) (l : Logger) (p : string) :
  updateHeat now (set_prefix l p) = set_prefix (updateHeat now l) p.
Proof. unfold updateHeat. cbn. heat_branches; reflexivity. Qed.

Lemma updateHeat_frame (now : Time) (l : Logger) :
  term (updateHeat now l) = term l
  /\ out (updateHeat now l) = out l
  /\ buf (updateHeat now l) = buf l
  /\ prefix (updateHeat now l) = prefix l.
Proof. unfold updateHeat. cbn. heat_branches; repeat split. Qed.

(** ** [Output], step by step *)

(** The logger at the call of [Write]: the heat machine has advanced, the
    banner is consumed, and the buffer holds the line. *)
Lemma render_eq (now : Time) (s : string) (l : Logger) :
  render now s l =
  set_buf (set_announce (updateHeat now l) "")
    (banner_part (announce' (updateHeat now l))
     ++ message_part (heat (updateHeat now l)) (term l) s
     ++ nl_part s).
Proof.
  unfold render. rewrite updateHeat_set_buf.
  destruct (updateHeat_frame now l) as (Ht & _).
  rewrite <- Ht.
  destruct (updateHeat now l) as [p t w b st pe fp r rh rf pb a h].
  unfold banner_part, message_part, nl_part. cbn.
  destruct (String.eqb_spec a "") as [-> | Ha]; cbn;
    destruct h as [h|]; cbn; destruct t; cbn;
    destruct (needs_nl s); cbn;
    rewrite ?app_nil_r, <- ?app_assoc; reflexivity.
Qed.

Lemma written_eq (now : Time) (s : string) (l : Logger) :
  written now s l =
  banner_part (announce' (updateHeat now l))
  ++ message_part (heat (updateHeat now l)) (term l) s
  ++ nl_part s.
Proof. unfold written. rewrite render_eq. reflexivity. Qed.

Lemma render_out (now : Time) (s : string) (l : Logger) :
  out (render now s l) = out l.
Proof. rewrite render_eq. cbn. apply updateHeat_frame. Qed.

(** [Output] is [render], then one [Write] of the buffer to the
    destination, whose error it returns. *)
Lemma Output_render (now : Time) (s : string) (l : Logger) :
  Output now s l =
  (set_out (render now s l) (fst (Write (out l) (written now s l))),
   snd (snd (Write (out l) (written now s l)))).
Proof.
  unfold written. rewrite <- (render_out now s l).
  unfold Output. fold (render now s l).
  destruct (Write (out (render now s l)) (buf (render now s l)))
    as [w [n err]].
  reflexivity.
Qed.

Lemma render_set_prefix (now : Time) (s : string) (l : Logger) (p : string) :
  render now s (set_prefix l p) = set_prefix (render now s l) p.
Proof. rewrite !render_eq, updateHeat_set_prefix. reflexivity. Qed.

Lemma Output_heat_machine (now : Time) (s : string) (l : Logger) :
  heat_machine (fst (Output now s l))
  = heat_machine (set_announce (updateHeat now l) "").
Proof. rewrite Output_render, render_eq. reflexivity. Qed.

(** Every call of [Output] hands one line to the destination: the banner
    part, the message part and the newline part. *)
Lemma Output_writes_line (now : Time) (s : string) (l : Logger) :
  Output_writes now s l
    (banner_part (announce' (updateHeat now l))
     ++ message_part (heat (updateHeat now l)) (term l) s
     ++ nl_part s).
Proof.
  unfold Output_writes. rewrite Output_render, written_eq, render_eq.
  repeat split.
Qed.

(** ** The prefix *)

(** C4: the prefix is never written: the line [Output] writes and the error
    it returns are the same whatever the prefix is set to, the logger after
    [Output] differs only in the prefix it was given, and [Output] leaves the
    prefix as it is; what the prefix decides is the value of [Prefix]. *)
Theorem prefix_not_written (now : Time) (s : string) (l : Logger)
  (p : string) :
  written now s (SetPrefix p l) = written now s l
  /\ snd (Output now s (SetPrefix p l)) = snd (Output now s l)
  /\ fst (Output now s (SetPrefix p l)) = SetPrefix p (fst (Output now s l))
  /\ Prefix (fst (Output now s l)) = Prefix l
  /\ Prefix (SetPrefix p l) = p.
Proof.
  unfold SetPrefix, Prefix.
  assert (Hw : written now s (set_prefix l p) = written now s l).
  { unfold written. rewrite render_set_prefix. reflexivity. }
  repeat split.
  - exact Hw.
  - rewrite !Output_render, Hw. reflexivity.
  - rewrite !Output_render, Hw, render_set_prefix. reflexivity.
  - rewrite Output_render, render_eq. cbn. apply updateHeat_frame.
Qed.

(** ** The error of the write *)

(** C8: [Output] returns the error of the one [Write] it makes; the
    destination afterwards is the destination after that one call; and the
    heat machine after [Output] is the one [updateHeat] left, with the banner
    consumed: it is the same for every destination, whether its write
    succeeds or fails. *)
Theorem Output_error (now : Time) (s : string) (l : Logger) :
  snd (Output now s l) = snd (snd (Write (out l) (written now s l)))
  /\ out (fst (Output now s l)) = fst (Write (out l) (written now s l))
  /\ heat_machine (fst (Output now s l))
     = heat_machine (set_announce (updateHeat now l) "")
  /\ (forall w1 w2 : Writer,
        heat_machine (fst (Output now s (SetOutput w1 l)))
        = heat_machine (fst (Output now s (SetOutput w2 l)))).
Proof.
  repeat split.
  - rewrite Output_render. reflexivity.
  - rewrite Output_render. reflexivity.
  - apply Output_heat_machine.
  - intros w1 w2. unfold SetOutput.
    rewrite !Output_heat_machine, !updateHeat_set_out. reflexivity.
Qed.

(** A failed write, on the run: the error comes back, the destination saw
    one call, and the machine went where a good write takes it. *)
Example Output_failed_write :
  let good := Output (mkTime 9 0) "x" ablaze in
  let bad := Output (mkTime 9 0) "x" (SetOutput (recorder true) ablaze) in
  snd good = None
  /\ snd bad = Some "write failed"
  /\ sink_state (out (fst bad)) = [written (mkTime 9 0) "x" ablaze]
  /\ heat_machine (fst bad) = heat_machine (fst good).
Proof. vm_compute. repeat split. Qed.

(** ** The transforms *)

Lemma heating_solid (txt : list byte) : heating txt = solid yellow txt.
Proof. unfold heating, solid, WriteString, WriteBytes. cbn [app].
  rewrite <- app_assoc. reflexivity. Qed.

Lemma blazing_solid (txt : list byte) : blazing txt = solid red txt.
Proof. unfold blazing, solid, WriteString, WriteBytes. cbn [app].
  rewrite <- app_assoc. reflexivity. Qed.

Lemma land_1_even (i : Z) : (Z.land i 1 =? 0) = Z.even i.
Proof.
  change 1 with (Z.ones 1) at 1. rewrite Z.land_ones by lia.
  rewrite Z.pow_1_r, Zmod_even. destruct (Z.even i); reflexivity.
Qed.

Lemma even_next (i : Z) : Z.even (i + 1) = negb (Z.even i).
Proof. rewrite Z.add_1_r, Z.even_succ, Z.negb_even. reflexivity. Qed.

Lemma fire_loop_two_tone (txt : list byte) :
  forall (i : Z) (b : Buffer),
    fire_loop i txt b =
    b ++ (if Z.even i then two_tone red yellow txt
          else two_tone yellow red txt).
Proof.
  induction txt as [| c rest IH]; intros i b; cbn [fire_loop two_tone].
  - destruct (Z.even i); rewrite app_nil_r; reflexivity.
  - rewrite IH, land_1_even, even_next.
    unfold WriteByte, WriteString.
    destruct (Z.even i); cbn [negb]; rewrite <- !app_assoc; reflexivity.
Qed.

Lemma fire_two_tone (txt : list byte) :
  fire txt = two_tone red yellow txt ++ list_byte_of_string reset.
Proof.
  unfold fire, WriteString. rewrite fire_loop_two_tone. reflexivity.
Qed.

Lemma fire_alternating : alternating fire.
Proof.
  exists red, yellow. repeat split; try discriminate. apply fire_two_tone.
Qed.

Lemma blazing_whole : whole blazing.
Proof. exists red. split; [discriminate | apply blazing_solid]. Qed.

Lemma heating_whole : whole heating.
Proof. exists yellow. split; [discriminate | apply heating_solid]. Qed.

Lemma list_byte_of_string_nil (c : string) :
  list_byte_of_string c = [] -> c = "".
Proof. destruct c; [reflexivity | discriminate]. Qed.

Lemma blazing_not_alternating : ~ alternating blazing.
Proof.
  intros (c0 & c1 & _ & H1 & H).
  specialize (H [byte_of_ascii "a"; byte_of_ascii "b"]).
  rewrite blazing_solid in H. unfold solid in H. cbn [two_tone] in H.
  rewrite !app_assoc in H. apply app_inv_tail in H.
  assert (E : (list_byte_of_string red ++ [byte_of_ascii "a"])
              ++ [byte_of_ascii "b"]
              = (list_byte_of_string c0
                 ++ byte_of_ascii "a" :: list_byte_of_string c1)
                ++ [byte_of_ascii "b"]).
  { rewrite <- !app_assoc. exact H. }
  apply app_inj_tail in E. destruct E as [E _].
  destruct (exists_last (l := list_byte_of_string c1)) as (c1' & x & Hc1).
  { intros N. apply H1, list_byte_of_string_nil, N. }
  rewrite Hc1 in E.
  assert (E' : list_byte_of_string red ++ [byte_of_ascii "a"]
               = (list_byte_of_string c0 ++ byte_of_ascii "a" :: c1')
                 ++ [x]).
  { rewrite <- app_assoc. exact E. }
  apply app_inj_tail in E'. destruct E' as [E' _].
  assert (Hin : In (byte_of_ascii "a") (list_byte_of_string red)).
  { rewrite E'. apply in_or_app. right. left. reflexivity. }
  vm_compute in Hin. intuition discriminate.
Qed.

Lemma fire_not_whole : ~ whole fire.
Proof.
  intros (c & Hc & H).
  pose proof (H []) as H0. rewrite fire_two_tone in H0.
  unfold solid in H0. cbn [two_tone app] in H0.
  assert (E : list_byte_of_string c = []).
  { destruct (list_byte_of_string c) as [| b r]; [reflexivity|].
    apply (f_equal (@List.length byte)) in H0.
    cbn [app] in H0. cbn [List.length] in H0.
    rewrite length_app in H0. lia. }
  apply Hc, list_byte_of_string_nil, E.
Qed.

(** ** The transform of each transition into and within [onFire] *)

Lemma updateHeat_blazing (now : Time) (l : Logger) :
  blazing_condition now l ->
  updateHeat now l =
  set_rate
    (set_heat
       (set_announce
          (set_heat (set_period (set_rate l (seen_rate l)) (Unix now))
             (Some fire))
          "Boomshakalaka!!! ")
       (Some blazing)) 0.
Proof.
  intros (Hs & Hp & Hr & Hb).
  rewrite (updateHeat_onFire now l Hs Hp). cbn zeta.
  destruct (Z.ltb_spec (seen_rate l) (rateOnFire l)); [lia|].
  destruct (Z.ltb_spec (int64_add (firePeriod l) (periodsBlazing l))
              (Unix now)); [reflexivity | lia].
Qed.

Lemma updateHeat_ignition (now : Time) (l : Logger) :
  ignition_condition now l ->
  updateHeat now l =
  set_rate
    (set_heat
       (set_firePeriod
          (set_state
             (set_announce
                (set_heat (set_period (set_rate l (seen_rate l)) (Unix now))
                   (Some heating))
                "It's on fire!!! ")
             onFire)
          (Unix now))
       (Some fire)) 0.
Proof.
  intros (Hs & Hp & Hr).
  rewrite (updateHeat_heatingUp now l Hs Hp). cbn zeta.
  destruct (Z.gtb_spec (seen_rate l) (rateOnFire l)); [reflexivity | lia].
Qed.

Lemma ablaze_blazing_condition : blazing_condition (mkTime 9 0) ablaze.
Proof. vm_compute. intuition discriminate. Qed.

Lemma warm_ignition_condition : ignition_condition (mkTime 3 0) warm.
Proof. vm_compute. intuition discriminate. Qed.

(** C2, as stated, fails.  On the run, the evaluation of second 9 finds the
    fire sustained and selects a transform that is not alternating, and the
    evaluation of second 3 enters [onFire] and selects a transform that is
    not whole. *)
Lemma transforms_are_swapped :
  blazing_condition (mkTime 9 0) ablaze
  /\ ~ (exists h, heat (updateHeat (mkTime 9 0) ablaze) = Some h
                  /\ alternating h)
  /\ ignition_condition (mkTime 3 0) warm
  /\ ~ (exists h, heat (updateHeat (mkTime 3 0) warm) = Some h /\ whole h).
Proof.
  split; [exact ablaze_blazing_condition|].
  split.
  { intros (h & Hh & Ha).
    rewrite (updateHeat_blazing _ _ ablaze_blazing_condition) in Hh.
    cbn in Hh. injection Hh as <-. exact (blazing_not_alternating Ha). }
  split; [exact warm_ignition_condition|].
  intros (h & Hh & Hw).
  rewrite (updateHeat_ignition _ _ warm_ignition_condition) in Hh.
  cbn in Hh. injection Hh as <-. exact (fire_not_whole Hw).
Qed.

(** C2, amended: the transform selected when the fire is sustained is
    [blazing], which puts the whole message after one red escape sequence
    and appends [reset]; the transform selected on entering [onFire] is
    [fire], which puts every byte after an escape sequence of its own, red
    before the bytes at the even indexes and yellow before the others, and
    appends [reset]. *)
Theorem selected_transforms (now : Time) (l : Logger) :
  (blazing_condition now l ->
   state (updateHeat now l) = onFire
   /\ heat (updateHeat now l) = Some blazing)
  /\ (ignition_condition now l ->
      state (updateHeat now l) = onFire
      /\ heat (updateHeat now l) = Some fire)
  /\ (forall txt, blazing txt = solid red txt)
  /\ (forall txt,
        fire txt = two_tone red yellow txt ++ list_byte_of_string reset)
  /\ whole blazing
  /\ alternating fire.
Proof.
  split; [| split; [| split; [| split; [| split]]]].
  - intros H. rewrite (updateHeat_blazing now l H). cbn.
    destruct H as (Hs & _). split; [exact Hs | reflexivity].
  - intros H. rewrite (updateHeat_ignition now l H). cbn.
    split; reflexivity.
  - exact blazing_solid.
  - exact fire_two_tone.
  - exact blazing_whole.
  - exact fire_alternating.
Qed.

Lemma selected_transforms_witness :
  (blazing_condition (mkTime 9 0) ablaze
   /\ heat (updateHeat (mkTime 9 0) ablaze) = Some blazing)
  /\ (ignition_condition (mkTime 3 0) warm
      /\ heat (updateHeat (mkTime 3 0) warm) = Some fire).
Proof.
  assert (Hb : blazing_condition (mkTime 9 0) ablaze)
    by (vm_compute; intuition discriminate).
  assert (Hi : ignition_condition (mkTime 3 0) warm)
    by (vm_compute; intuition discriminate).
  split; (split; [assumption|]).
  - destruct (selected_transforms (mkTime 9 0) ablaze) as (H & _).
    apply (H Hb).
  - destruct (selected_transforms (mkTime 3 0) warm) as (_ & H & _).
    apply (H Hi).
Defined.

(** ** The newline *)

Lemma ends_nl_iff (s : string) :
  ends_nl s = true <-> exists s', s = (s' ++ String LF "")%string.
Proof.
  induction s as [| c s IH].
  - split; [discriminate|]. intros ([| c' s'] & H); discriminate H.
  - destruct s as [| d s].
    + cbn [ends_nl]. split.
      * intros H. apply Ascii.eqb_eq in H. subst c. exists "". reflexivity.
      * intros ([| c' s'] & H).
        -- injection H as ->. apply Ascii.eqb_refl.
        -- cbn in H. injection H as _ H. destruct s'; discriminate H.
    + change (ends_nl (String c (String d s))) with (ends_nl (String d s)).
      rewrite IH. split.
      * intros (s' & H). exists (String c s'). cbn. rewrite <- H.
        reflexivity.
      * intros ([| c' s'] & H); [discriminate H|].
        cbn in H. injection H as _ H. exists s'. exact H.
Qed.

Lemma get_last (c : ascii) (s : string) :
  String.get (String.length (String c s) - 1) (String c s) =
  match s with
  | EmptyString => Some c
  | String _ _ => String.get (String.length s - 1) s
  end.
Proof.
  destruct s as [| d s]; [reflexivity|].
  cbn [String.length Nat.sub]. rewrite Nat.sub_0_r. reflexivity.
Qed.

Lemma needs_nl_ends_nl (s : string) : needs_nl s = negb (ends_nl s).
Proof.
  unfold needs_nl. induction s as [| c s IH]; [reflexivity|].
  change (String.length (String c s) =? 0)%nat with false.
  cbn [orb]. rewrite get_last.
  destruct s as [| d s]; [reflexivity|].
  change (String.length (String d s) =? 0)%nat with false in IH.
  cbn [orb] in IH. exact IH.
Qed.

Lemma count_nl_app (p q : list byte) :
  count_nl (p ++ q) = (count_nl p + count_nl q)%nat.
Proof. unfold count_nl. rewrite filter_app, length_app. reflexivity. Qed.

Lemma count_nl_solid (c : string) (txt : list byte) :
  count_nl (list_byte_of_string c) = 0%nat ->
  count_nl (solid c txt) = count_nl txt.
Proof.
  intros Hc. unfold solid. rewrite !count_nl_app, Hc.
  change (count_nl (list_byte_of_string reset)) with 0%nat. lia.
Qed.

Lemma count_nl_two_tone (txt : list byte) :
  forall c0 c1 : string,
    count_nl (list_byte_of_string c0) = 0%nat ->
    count_nl (list_byte_of_string c1) = 0%nat ->
    count_nl (two_tone c0 c1 txt) = count_nl txt.
Proof.
  induction txt as [| c rest IH]; intros c0 c1 H0 H1; [reflexivity|].
  cbn [two_tone]. rewrite count_nl_app, H0.
  change (c :: two_tone c1 c0 rest) with ([c] ++ two_tone c1 c0 rest).
  change (c :: rest) with ([c] ++ rest).
  rewrite !count_nl_app, (IH c1 c0 H1 H0). reflexivity.
Qed.

Lemma updateHeat_known_heat (now : Time) (l : Logger) :
  known_heat (heat l) -> known_heat (heat (updateHeat now l)).
Proof.
  intros H. unfold updateHeat. cbn. unfold known_heat.
  heat_branches; cbn; auto.
Qed.

Lemma count_nl_message_part (h : option (list byte -> list byte))
  (t : bool) (s : string) :
  known_heat h ->
  count_nl (message_part h t s) = count_nl (list_byte_of_string s).
Proof.
  unfold message_part.
  intros [-> | [-> | [-> | ->]]]; try reflexivity; destruct t;
    try reflexivity.
  - rewrite heating_solid. apply count_nl_solid. reflexivity.
  - rewrite fire_two_tone, count_nl_app.
    rewrite count_nl_two_tone by reflexivity.
    change (count_nl (list_byte_of_string reset)) with 0%nat. lia.
  - rewrite blazing_solid. apply count_nl_solid. reflexivity.
Qed.

(** C7, as stated, fails.  A message that ends in two newlines is written
    with its two newlines; and on the run, in [heatingUp], the line for a
    message that ends in a newline ends in [reset], the newline inside the
    yellow text.  Each line is the one write the destination got. *)
Lemma one_newline_claim_fails :
  (ends_nl (String "a" (String LF (String LF ""))) = true
   /\ sink_state
        (out (fst (Output (mkTime 1 0) (String "a" (String LF (String LF "")))
                     fresh)))
      = [list_byte_of_string (String "a" (String LF (String LF "")))]
   /\ ends_in_one_nl
        (buf (fst (Output (mkTime 1 0)
                     (String "a" (String LF (String LF ""))) fresh)))
      = false)
  /\ (ends_nl (String "x" (String LF "")) = true
      /\ sink_state
           (out (fst (Output (mkTime 2 1) (String "x" (String LF ""))
                        (SetOutput (recorder false) warm))))
         = [list_byte_of_string yellow
            ++ list_byte_of_string (String "x" (String LF ""))
            ++ list_byte_of_string reset]
      /\ ends_in_one_nl
           (buf (fst (Output (mkTime 2 1) (String "x" (String LF ""))
                        (SetOutput (recorder false) warm))))
         = false).
Proof. vm_compute. repeat split. Qed.

(** C7, amended: to a message that ends in a newline [Output] appends
    nothing: the line is the banner part and the message part, so with no
    transform applied it ends as the message does, with the newlines of the
    message and no other, and with a transform applied it ends where the
    transform ends.  To a message that does not end in a newline, the empty
    message included, [Output] appends one newline byte after the message
    part.  The transforms of the package add no newline byte and take none
    away. *)
Theorem Output_appends_newline (now : Time) (s : string) (l : Logger) :
  (ends_nl s = true ->
   Output_writes now s l
     (banner_part (announce' (updateHeat now l))
      ++ message_part (heat (updateHeat now l)) (term l) s)
   /\ (heat (updateHeat now l) = None \/ term l = false ->
       Output_writes now s l
         (banner_part (announce' (updateHeat now l))
          ++ list_byte_of_string s)))
  /\ (ends_nl s = false ->
      Output_writes now s l
        (banner_part (announce' (updateHeat now l))
         ++ message_part (heat (updateHeat now l)) (term l) s
         ++ [byte_of_ascii LF]))
  /\ (known_heat (heat l) ->
      count_nl (message_part (heat (updateHeat now l)) (term l) s)
      = count_nl (list_byte_of_string s)).
Proof.
  pose proof (Output_writes_line now s l) as W.
  unfold nl_part in W. rewrite needs_nl_ends_nl in W.
  split; [| split].
  - intros E. rewrite E in W. cbn [negb] in W. rewrite app_nil_r in W.
    split; [exact W|].
    intros [Hn | Ht]; [rewrite Hn in W | rewrite Ht in W];
      unfold message_part in W; [exact W|].
    destruct (heat (updateHeat now l)); exact W.
  - intros E. rewrite E in W. exact W.
  - intros Hk. apply count_nl_message_part, updateHeat_known_heat, Hk.
Qed.

Lemma Output_appends_newline_witness :
  (ends_nl (String "x" (String LF "")) = true
   /\ buf (fst (Output (mkTime 9 0) (String "x" (String LF "")) ablaze))
      = announce "Boomshakalaka!!! "
        ++ blazing (list_byte_of_string (String "x" (String LF ""))))
  /\ (ends_nl (String "x" (String LF "")) = true
      /\ heat (updateHeat (mkTime 1 0) fresh) = None
      /\ buf (fst (Output (mkTime 1 0) (String "x" (String LF "")) fresh))
         = list_byte_of_string (String "x" (String LF "")))
  /\ (ends_nl "" = false
      /\ buf (fst (Output (mkTime 1 0) "" fresh)) = [byte_of_ascii LF])
  /\ (known_heat (heat ablaze)
      /\ count_nl
           (message_part (heat (updateHeat (mkTime 9 0) ablaze))
              (term ablaze) (String "x" (String LF ""))) = 1%nat).
Proof.
  assert (Hk : known_heat (heat ablaze))
    by (right; right; left; reflexivity).
  assert (Hn : heat (updateHeat (mkTime 1 0) fresh) = None) by reflexivity.
  split; [| split; [| split]].
  - split; [reflexivity|].
    destruct (Output_appends_newline (mkTime 9 0)
                (String "x" (String LF "")) ablaze) as (H & _).
    destruct (H eq_refl) as ((_ & _ & Hb) & _). rewrite Hb. reflexivity.
  - split; [reflexivity|]. split; [exact Hn|].
    destruct (Output_appends_newline (mkTime 1 0)
                (String "x" (String LF "")) fresh) as (H & _).
    destruct (H eq_refl) as (_ & H').
    destruct (H' (or_introl Hn)) as (_ & _ & Hb). rewrite Hb. reflexivity.
  - split; [reflexivity|].
    destruct (Output_appends_newline (mkTime 1 0) "" fresh) as (_ & H & _).
    destruct (H eq_refl) as (_ & _ & Hb). rewrite Hb. reflexivity.
  - split; [exact Hk|].
    destruct (Output_appends_newline (mkTime 9 0)
                (String "x" (String LF "")) ablaze) as (_ & _ & H).
    rewrite (H Hk). reflexivity.
Defined.

(** ** The banner of the sustained fire *)

(** C1, as stated, fails.  The run goes on with 20 lines in each of the
    seconds 9, 10 and 11.  The evaluation of second 9 finds the fire
    sustained and queues the banner, and the first line of second 9 consumes
    it; the evaluation of second 10 finds the state [onFire] and the fire
    sustained, and queues the banner again; the 60 lines have the banner
    three times, once for each second. *)
Lemma banner_repeats_every_second :
  blazing_condition (mkTime 9 0) ablaze
  /\ announce' (updateHeat (mkTime 9 0) ablaze) = "Boomshakalaka!!! "
  /\ announce' (burst 20 9 "x" ablaze) = ""
  /\ blazing_condition (mkTime 10 0) (burst 20 9 "x" ablaze)
  /\ announce' (updateHeat (mkTime 10 0) (burst 20 9 "x" ablaze))
     = "Boomshakalaka!!! "
  /\ banner_count "Boomshakalaka!!! "
       (lines (repeat (9, "x") 20 ++ repeat (10, "x") 20
               ++ repeat (11, "x") 20) ablaze) = 3%nat.
Proof. vm_compute. intuition discriminate. Qed.

(** C1, amended: every per-second evaluation that finds the state [onFire],
    a rate of at least [rateOnFire] and [firePeriod + periodsBlazing] before
    the new second queues the banner "Boomshakalaka!!! ": once for each
    such second, not once for the episode.  The call of [Output] that made
    the evaluation writes the banner before its message and clears it; state,
    [firePeriod] and the thresholds stay, so that the condition can hold again
    in the next second; the lines that follow in the same second have no
    banner. *)
Theorem blazing_banner (now : Time) (s : string) (l : Logger) :
  blazing_condition now l ->
  announce' (updateHeat now l) = "Boomshakalaka!!! "
  /\ written now s l =
       announce "Boomshakalaka!!! "
       ++ message_part (Some blazing) (term l) s ++ nl_part s
  /\ announce' (fst (Output now s l)) = ""
  /\ state (fst (Output now s l)) = onFire
  /\ firePeriod (fst (Output now s l)) = firePeriod l
  /\ periodsBlazing (fst (Output now s l)) = periodsBlazing l
  /\ rateOnFire (fst (Output now s l)) = rateOnFire l
  /\ (forall (now' : Time) (s' : string),
        Unix now' = Unix now ->
        written now' s' (fst (Output now s l)) =
          message_part (Some blazing) (term l) s' ++ nl_part s').
Proof.
  intros H. pose proof (updateHeat_blazing now l H) as U.
  assert (O : fst (Output now s l) =
              set_out (render now s l)
                (fst (Write (out l) (written now s l))))
    by (rewrite Output_render; reflexivity).
  rewrite render_eq, U in O.
  destruct H as (Hs & _).
  split; [rewrite U; reflexivity|].
  split; [rewrite written_eq, U; reflexivity|].
  rewrite O. cbn.
  repeat split; try assumption.
  intros now' s' Hn. rewrite written_eq.
  rewrite updateHeat_same by (rewrite Hn; reflexivity).
  reflexivity.
Qed.

Lemma blazing_banner_witness :
  blazing_condition (mkTime 10 0) (burst 20 9 "x" ablaze)
  /\ has_banner "Boomshakalaka!!! "
       (written (mkTime 10 0) "x" (burst 20 9 "x" ablaze)) = true
  /\ has_banner "Boomshakalaka!!! "
       (written (mkTime 10 1) "y"
          (fst (Output (mkTime 10 0) "x" (burst 20 9 "x" ablaze)))) = false.
Proof.
  assert (Hb : blazing_condition (mkTime 10 0) (burst 20 9 "x" ablaze))
    by (vm_compute; intuition discriminate).
  destruct (blazing_banner (mkTime 10 0) "x" (burst 20 9 "x" ablaze) Hb)
    as (_ & Hw & _ & _ & _ & _ & _ & Hn).
  split; [exact Hb|]. split.
  - rewrite Hw. reflexivity.
  - rewrite (Hn (mkTime 10 1) "y" eq_refl). reflexivity.
Defined.

(** ** The terminal mode and the public interface *)

Lemma Output_term (now : Time) (s : string) (l : Logger) :
  term (fst (Output now s l)) = term l.
Proof. rewrite Output_render, render_eq. cbn. apply updateHeat_frame. Qed.

Section PublicInterface.

Variable any : Type.
Variable Sprintf : string -> list any -> string.
Variable Sprint : list any -> string.
Variable Sprintln : list any -> string.

Lemma exec_term (op : Op any) (l : Logger) :
  term (fst (exec any Sprintf Sprint Sprintln op l)) = term l.
Proof.
  destruct op; cbn; try reflexivity; apply Output_term.
Qed.

Lemma run_term (ops : list (Op any)) :
  forall l : Logger, term (run any Sprintf Sprint Sprintln ops l) = term l.
Proof.
  induction ops as [| op rest IH]; intros l; [reflexivity|].
  cbn [run].
  pose proof (exec_term op l) as H.
  destruct (exec any Sprintf Sprint Sprintln op l) as [l' o].
  cbn [fst] in H.
  destruct o; try (rewrite IH); exact H.
Qed.

(** C10: no method of the public interface changes [term]; after every
    sequence of calls on a logger of [New] it is [true]; and so [Output]
    passes the message through the transform whenever there is one: the
    line it hands to the destination is the banner part, the transform of
    the message, and the newline part. *)
Theorem terminal_mode_stays_on (w : Writer) (p : string)
  (ops : list (Op any)) :
  (forall (op : Op any) (l : Logger),
      term (fst (exec any Sprintf Sprint Sprintln op l)) = term l)
  /\ term (run any Sprintf Sprint Sprintln ops (New w p)) = true
  /\ (forall (now : Time) (s : string) (h : list byte -> list byte),
        heat (updateHeat now
                (run any Sprintf Sprint Sprintln ops (New w p))) = Some h ->
        Output_writes now s (run any Sprintf Sprint Sprintln ops (New w p))
          (banner_part
             (announce'
                (updateHeat now
                   (run any Sprintf Sprint Sprintln ops (New w p))))
           ++ h (list_byte_of_string s) ++ nl_part s)).
Proof.
  assert (Ht : term (run any Sprintf Sprint Sprintln ops (New w p)) = true)
    by (rewrite run_term; reflexivity).
  split; [exact exec_term|]. split; [exact Ht|].
  intros now s h Hh.
  pose proof (Output_writes_line now s
                (run any Sprintf Sprint Sprintln ops (New w p))) as W.
  rewrite Hh, Ht in W. exact W.
Qed.

End PublicInterface.

Lemma terminal_mode_stays_on_witness :
  heat (updateHeat (mkTime 1 7)
          (run string sprintf sprint sprintln session
             (New (recorder false) ""))) = Some heating
  /\ buf (fst (Output (mkTime 1 7) "f"
                 (run string sprintf sprint sprintln session
                    (New (recorder false) ""))))
     = heating (list_byte_of_string "f") ++ [byte_of_ascii LF]
  /\ snd (Output (mkTime 1 7) "f"
             (run string sprintf sprint sprintln session
                (New (recorder false) "")))
     = Some "write failed".
Proof.
  assert (Hh : heat (updateHeat (mkTime 1 7)
                       (run string sprintf sprint sprintln session
                          (New (recorder false) ""))) = Some heating)
    by reflexivity.
  split; [exact Hh|].
  destruct (terminal_mode_stays_on string sprintf sprint sprintln
              (recorder false) "" session) as (_ & _ & H).
  destruct (H (mkTime 1 7) "f" heating Hh) as (_ & He & Hb).
  split; [rewrite Hb | rewrite He]; reflexivity.
Defined.

(** ** The terminal mode off *)


Section TerminalModeOff.

Variable any : Type.
Variable Sprintf : string -> list any -> string.
Variable Sprint : list any -> string.
Variable Sprintln : list any -> string.




End TerminalModeOff.


(** * Further properties of the code *)

(** ** The transition table of [updateHeat] *)

Lemma updateHeat_cold (now : Time) (l : Logger) :
  state l = cold -> Unix now <> period l ->
  updateHeat now l =
  let l1 :=
    set_heat (set_period (set_rate l (seen_rate l)) (Unix now)) None in
  set_rate
    (if seen_rate l >? rateHeatingUp l
     then set_heat
            (set_state (set_announce l1 "It's heating up!!! ") heatingUp)
            (Some heating)
     else l1) 0.
Proof.
  intros Hs Hp. unfold updateHeat. cbn.
  destruct (Z.eqb_spec (period l) (Unix now)); [congruence|].
  rewrite Hs. reflexivity.
Qed.

Lemma updateHeat_coolingDown (now : Time) (l : Logger) :
  state l = coolingDown -> Unix now <> period l ->
  updateHeat now l =
  let l1 := set_period (set_rate l (seen_rate l)) (Unix now) in
  set_rate
    (if seen_rate l >? rateHeatingUp l
     then set_state (set_heat l1 (Some heating)) heatingUp
     else if seen_rate l <? rateHeatingUp l
          then set_state (set_heat l1 None) cold
          else l1) 0.
Proof.
  intros Hs Hp. unfold updateHeat. cbn.
  destruct (Z.eqb_spec (period l) (Unix now)); [congruence|].
  rewrite Hs. reflexivity.
Qed.

(** X1: In [cold], an evaluation that sees more than [rateHeatingUp] lines goes
    to [heatingUp] with the transform [heating] and queues "It's heating
    up!!! "; any other evaluation stays in [cold], drops the transform and
    leaves the pending banner as it is. *)
Theorem cold_evaluation (now : Time) (l : Logger) :
  state l = cold -> Unix now <> period l ->
  (seen_rate l > rateHeatingUp l ->
   state (updateHeat now l) = heatingUp
   /\ heat (updateHeat now l) = Some heating
   /\ announce' (updateHeat now l) = "It's heating up!!! ")
  /\ (seen_rate l <= rateHeatingUp l ->
      state (updateHeat now l) = cold
      /\ heat (updateHeat now l) = None
      /\ announce' (updateHeat now l) = announce' l).
Proof.
  intros Hs Hp. rewrite (updateHeat_cold now l Hs Hp). cbn zeta.
  split; intros Hr;
    destruct (Z.gtb_spec (seen_rate l) (rateHeatingUp l)); try lia; cbn;
    repeat split; assumption.
Qed.

Lemma cold_evaluation_witness :
  (state (burst 11 1 "x" fresh) = cold
   /\ Unix (mkTime 2 0) <> period (burst 11 1 "x" fresh)
   /\ seen_rate (burst 11 1 "x" fresh)
      > rateHeatingUp (burst 11 1 "x" fresh))
  /\ state (updateHeat (mkTime 2 0) (burst 11 1 "x" fresh)) = heatingUp
  /\ (seen_rate (burst 10 1 "x" fresh)
      <= rateHeatingUp (burst 10 1 "x" fresh)
      /\ state (updateHeat (mkTime 2 0) (burst 10 1 "x" fresh)) = cold).
Proof.
  assert (Hp : Unix (mkTime 2 0) <> period (burst 11 1 "x" fresh))
    by (vm_compute; discriminate).
  assert (Hp' : Unix (mkTime 2 0) <> period (burst 10 1 "x" fresh))
    by (vm_compute; discriminate).
  assert (Hr : seen_rate (burst 11 1 "x" fresh)
               > rateHeatingUp (burst 11 1 "x" fresh)) by reflexivity.
  assert (Hr' : seen_rate (burst 10 1 "x" fresh)
                <= rateHeatingUp (burst 10 1 "x" fresh))
    by (vm_compute; discriminate).
  destruct (cold_evaluation (mkTime 2 0) (burst 11 1 "x" fresh) eq_refl Hp)
    as [H _].
  destruct (cold_evaluation (mkTime 2 0) (burst 10 1 "x" fresh) eq_refl Hp')
    as [_ H'].
  split; [repeat split; assumption|].
  split; [apply (H Hr)|]. split; [exact Hr' | apply (H' Hr')].
Defined.

(** X2: In [coolingDown], an evaluation that sees more than [rateHeatingUp]
    lines goes to [heatingUp] with [heating], one that sees fewer goes to
    [cold] with no transform, and one that sees exactly [rateHeatingUp]
    lines keeps state and transform; none of them touches the banner. *)
Theorem coolingDown_evaluation (now : Time) (l : Logger) :
  state l = coolingDown -> Unix now <> period l ->
  announce' (updateHeat now l) = announce' l
  /\ (seen_rate l > rateHeatingUp l ->
      state (updateHeat now l) = heatingUp
      /\ heat (updateHeat now l) = Some heating)
  /\ (seen_rate l < rateHeatingUp l ->
      state (updateHeat now l) = cold /\ heat (updateHeat now l) = None)
  /\ (seen_rate l = rateHeatingUp l ->
      state (updateHeat now l) = coolingDown
      /\ heat (updateHeat now l) = heat l).
Proof.
  intros Hs Hp. rewrite (updateHeat_coolingDown now l Hs Hp). cbn zeta.
  destruct (Z.gtb_spec (seen_rate l) (rateHeatingUp l));
    destruct (Z.ltb_spec (seen_rate l) (rateHeatingUp l)); cbn;
    repeat split; intros; try lia; try reflexivity; assumption.
Qed.

Lemma coolingDown_evaluation_witness :
  (state (burst 10 5 "x" (burst 3 4 "x" burning)) = coolingDown
   /\ Unix (mkTime 6 0) <> period (burst 10 5 "x" (burst 3 4 "x" burning))
   /\ seen_rate (burst 10 5 "x" (burst 3 4 "x" burning))
      = rateHeatingUp (burst 10 5 "x" (burst 3 4 "x" burning)))
  /\ state (updateHeat (mkTime 6 0)
              (burst 10 5 "x" (burst 3 4 "x" burning))) = coolingDown
  /\ heat (updateHeat (mkTime 6 0)
             (burst 10 5 "x" (burst 3 4 "x" burning))) = Some heating.
Proof.
  assert (Hs : state (burst 10 5 "x" (burst 3 4 "x" burning)) = coolingDown)
    by reflexivity.
  assert (Hp : Unix (mkTime 6 0)
               <> period (burst 10 5 "x" (burst 3 4 "x" burning)))
    by (vm_compute; discriminate).
  assert (Hr : seen_rate (burst 10 5 "x" (burst 3 4 "x" burning))
               = rateHeatingUp (burst 10 5 "x" (burst 3 4 "x" burning)))
    by reflexivity.
  destruct (coolingDown_evaluation (mkTime 6 0)
              (burst 10 5 "x" (burst 3 4 "x" burning)) Hs Hp)
    as (_ & _ & _ & H).
  destruct (H Hr) as [H1 H2].
  split; [repeat split; assumption|].
  split; [exact H1 | rewrite H2; reflexivity].
Defined.

(** X3: In [heatingUp], an evaluation that sees more than [rateOnFire] lines
    goes to [onFire] with the transform [fire], takes the new second as
    [firePeriod] and queues "It's on fire!!! "; any other evaluation stays in
    [heatingUp] with [heating] and leaves [firePeriod] and the banner. *)
Theorem heatingUp_evaluation (now : Time) (l : Logger) :
  state l = heatingUp -> Unix now <> period l ->
  (seen_rate l > rateOnFire l ->
   state (updateHeat now l) = onFire
   /\ heat (updateHeat now l) = Some fire
   /\ firePeriod (updateHeat now l) = Unix now
   /\ announce' (updateHeat now l) = "It's on fire!!! ")
  /\ (seen_rate l <= rateOnFire l ->
      state (updateHeat now l) = heatingUp
      /\ heat (updateHeat now l) = Some heating
      /\ firePeriod (updateHeat now l) = firePeriod l
      /\ announce' (updateHeat now l) = announce' l).
Proof.
  intros Hs Hp. rewrite (updateHeat_heatingUp now l Hs Hp). cbn zeta.
  split; intros Hr;
    destruct (Z.gtb_spec (seen_rate l) (rateOnFire l)); try lia; cbn;
    repeat split; assumption.
Qed.

Lemma heatingUp_evaluation_witness :
  (state warm = heatingUp
   /\ Unix (mkTime 3 0) <> period warm
   /\ seen_rate warm > rateOnFire warm)
  /\ state (updateHeat (mkTime 3 0) warm) = onFire
  /\ firePeriod (updateHeat (mkTime 3 0) warm) = 3
  /\ (seen_rate (burst 20 2 "x" (burst 11 1 "x" fresh))
      <= rateOnFire (burst 20 2 "x" (burst 11 1 "x" fresh))
      /\ state (updateHeat (mkTime 3 0)
                  (burst 20 2 "x" (burst 11 1 "x" fresh))) = heatingUp).
Proof.
  assert (Hp : Unix (mkTime 3 0) <> period warm)
    by (vm_compute; discriminate).
  assert (Hr : seen_rate warm > rateOnFire warm) by reflexivity.
  assert (Hp' : Unix (mkTime 3 0)
                <> period (burst 20 2 "x" (burst 11 1 "x" fresh)))
    by (vm_compute; discriminate).
  assert (Hr' : seen_rate (burst 20 2 "x" (burst 11 1 "x" fresh))
                <= rateOnFire (burst 20 2 "x" (burst 11 1 "x" fresh)))
    by (vm_compute; discriminate).
  destruct (heatingUp_evaluation (mkTime 3 0) warm eq_refl Hp) as [H _].
  destruct (heatingUp_evaluation (mkTime 3 0)
              (burst 20 2 "x" (burst 11 1 "x" fresh)) eq_refl Hp')
    as [_ H'].
  destruct (H Hr) as (H1 & _ & H3 & _).
  destruct (H' Hr') as (H1' & _).
  repeat split; assumption.
Defined.

(** X4: In [onFire], an evaluation that sees at least [rateOnFire] lines while
    [firePeriod + periodsBlazing] is not yet before the new second stays in
    [onFire] with the transform [fire]; it queues no banner and leaves
    [firePeriod]. *)
Theorem onFire_steady (now : Time) (l : Logger) :
  state l = onFire -> Unix now <> period l ->
  seen_rate l >= rateOnFire l ->
  Unix now <= int64_add (firePeriod l) (periodsBlazing l) ->
  state (updateHeat now l) = onFire
  /\ heat (updateHeat now l) = Some fire
  /\ announce' (updateHeat now l) = announce' l
  /\ firePeriod (updateHeat now l) = firePeriod l.
Proof.
  intros Hs Hp Hr Hb. rewrite (updateHeat_onFire now l Hs Hp). cbn zeta.
  destruct (Z.ltb_spec (seen_rate l) (rateOnFire l)); [lia|].
  destruct (Z.ltb_spec (int64_add (firePeriod l) (periodsBlazing l))
              (Unix now)); [lia|].
  cbn. repeat split. exact Hs.
Qed.

Lemma onFire_steady_witness :
  (state burning = onFire
   /\ Unix (mkTime 8 0) <> period burning
   /\ seen_rate burning >= rateOnFire burning
   /\ Unix (mkTime 8 0)
      <= int64_add (firePeriod burning) (periodsBlazing burning))
  /\ state (updateHeat (mkTime 8 0) burning) = onFire
  /\ heat (updateHeat (mkTime 8 0) burning) = Some fire
  /\ announce' (updateHeat (mkTime 8 0) burning) = "".
Proof.
  assert (Hp : Unix (mkTime 8 0) <> period burning)
    by (vm_compute; discriminate).
  assert (Hr : seen_rate burning >= rateOnFire burning)
    by (vm_compute; discriminate).
  assert (Hb : Unix (mkTime 8 0)
               <= int64_add (firePeriod burning) (periodsBlazing burning))
    by (vm_compute; discriminate).
  destruct (onFire_steady (mkTime 8 0) burning eq_refl Hp Hr Hb)
    as (H1 & H2 & H3 & _).
  split; [repeat split; assumption|].
  split; [exact H1|]. split; [exact H2|]. rewrite H3. reflexivity.
Defined.

(** ** The counters *)

Lemma updateHeat_period (now : Time) (l : Logger) :
  period (updateHeat now l) = Unix now.
Proof.
  unfold updateHeat. cbn.
  destruct (Z.eqb_spec (period l) (Unix now)) as [E | E];
    [exact E | heat_branches; reflexivity].
Qed.

Lemma updateHeat_new_second (now : Time) (l : Logger) :
  Unix now <> period l -> rate (updateHeat now l) = 0.
Proof.
  intros Hp. unfold updateHeat. cbn.
  destruct (Z.eqb_spec (period l) (Unix now)); [congruence|].
  heat_branches; reflexivity.
Qed.

(** X5: Whenever the second of the call differs from [period], earlier seconds
    and seconds after a gap included, and whatever the state is, the count
    restarts at 0 and [period] becomes the second of the call. *)
Theorem new_second_resets (now : Time) (l : Logger) :
  Unix now <> period l ->
  rate (updateHeat now l) = 0 /\ period (updateHeat now l) = Unix now.
Proof.
  intros Hp. split; [apply updateHeat_new_second, Hp | apply updateHeat_period].
Qed.

Lemma new_second_resets_witness :
  Unix (mkTime 2 0) <> period ablaze
  /\ rate ablaze = 19
  /\ rate (updateHeat (mkTime 2 0) ablaze) = 0
  /\ period (updateHeat (mkTime 2 0) ablaze) = 2.
Proof.
  assert (Hp : Unix (mkTime 2 0) <> period ablaze)
    by (vm_compute; discriminate).
  destruct (new_second_resets (mkTime 2 0) ablaze Hp) as [H1 H2].
  repeat split; assumption.
Defined.

(** ** The shape of the state machine *)

(** X6: A call of [updateHeat] keeps the state or takes one of five
    transitions: [cold] to [heatingUp], [coolingDown] to [heatingUp] or to
    [cold], [heatingUp] to [onFire], [onFire] to [coolingDown].  So [onFire]
    is entered from [heatingUp] only, and [coolingDown] from [onFire] only. *)
Theorem updateHeat_transitions (now : Time) (l : Logger) :
  state (updateHeat now l) = state l
  \/ In (state l, state (updateHeat now l)) transitions.
Proof.
  unfold transitions.
  destruct (Z.eq_dec (Unix now) (period l)) as [Hp | Hp].
  { left. rewrite (updateHeat_same now l Hp). reflexivity. }
  destruct (Z.eq_dec (state l) cold) as [Hs | Hc].
  { rewrite (updateHeat_cold now l Hs Hp), Hs. cbn zeta.
    destruct (seen_rate l >? rateHeatingUp l); cbn; auto 10. }
  destruct (Z.eq_dec (state l) coolingDown) as [Hs | Hd].
  { rewrite (updateHeat_coolingDown now l Hs Hp), Hs. cbn zeta.
    destruct (seen_rate l >? rateHeatingUp l); cbn; auto 10.
    destruct (seen_rate l <? rateHeatingUp l); cbn; auto 10. }
  destruct (Z.eq_dec (state l) heatingUp) as [Hs | Hh].
  { rewrite (updateHeat_heatingUp now l Hs Hp), Hs. cbn zeta.
    destruct (seen_rate l >? rateOnFire l); cbn; auto 10. }
  destruct (Z.eq_dec (state l) onFire) as [Hs | Hf].
  { rewrite (updateHeat_onFire now l Hs Hp), Hs. cbn zeta.
    destruct (seen_rate l <? rateOnFire l); cbn; auto 10.
    destruct (int64_add (firePeriod l) (periodsBlazing l) <? Unix now);
      cbn; auto 10. }
  left. unfold updateHeat. cbn.
  destruct (Z.eqb_spec (period l) (Unix now)); [reflexivity|].
  destruct (Z.eqb_spec (state l) cold); [contradiction|].
  destruct (Z.eqb_spec (state l) coolingDown); [contradiction|].
  destruct (Z.eqb_spec (state l) heatingUp); [contradiction|].
  destruct (Z.eqb_spec (state l) onFire); [contradiction|].
  reflexivity.
Qed.

(** X7: A logger whose state is none of the four constants, as the zero value
    of [Logger] is, never heats: [updateHeat] has no case for it, and leaves
    state, transform, banner and [firePeriod] as they are. *)
Theorem unknown_state_stays (now : Time) (l : Logger) :
  ~ valid_state (state l) ->
  state (updateHeat now l) = state l
  /\ heat (updateHeat now l) = heat l
  /\ announce' (updateHeat now l) = announce' l
  /\ firePeriod (updateHeat now l) = firePeriod l.
Proof.
  intros Hv. unfold valid_state in Hv. unfold updateHeat. cbn.
  destruct (Z.eqb_spec (period l) (Unix now)); [repeat split|].
  destruct (Z.eqb_spec (state l) cold); [tauto|].
  destruct (Z.eqb_spec (state l) coolingDown); [tauto|].
  destruct (Z.eqb_spec (state l) heatingUp); [tauto|].
  destruct (Z.eqb_spec (state l) onFire); [tauto|].
  repeat split.
Qed.

Lemma unknown_state_stays_witness :
  ~ valid_state (state (set_rate (zero_logger (recorder false)) 1000))
  /\ state (updateHeat (mkTime 5 0)
              (set_rate (zero_logger (recorder false)) 1000)) = 0
  /\ heat (updateHeat (mkTime 5 0)
             (set_rate (zero_logger (recorder false)) 1000)) = None.
Proof.
  assert (Hv : ~ valid_state
                 (state (set_rate (zero_logger (recorder false)) 1000))).
  { intros [H | [H | [H | H]]]; discriminate H. }
  destruct (unknown_state_stays (mkTime 5 0)
              (set_rate (zero_logger (recorder false)) 1000) Hv)
    as (H1 & H2 & _).
  split; [exact Hv|]. split; [rewrite H1 | rewrite H2]; reflexivity.
Defined.

Lemma updateHeat_consistent (now : Time) (l : Logger) :
  consistent l -> consistent (updateHeat now l).
Proof.
  intros Hc.
  destruct (Z.eq_dec (Unix now) (period l)) as [Hp | Hp].
  { rewrite (updateHeat_same now l Hp). exact Hc. }
  unfold consistent in *.
  destruct Hc as [[Hs Hh] | [[Hs Hh] | [[Hs Hh] | [Hs Hh]]]].
  - rewrite (updateHeat_cold now l Hs Hp). cbn zeta.
    destruct (seen_rate l >? rateHeatingUp l); cbn; auto 10.
  - rewrite (updateHeat_coolingDown now l Hs Hp). cbn zeta.
    destruct (seen_rate l >? rateHeatingUp l); cbn; auto 10.
    destruct (seen_rate l <? rateHeatingUp l); cbn; auto 10.
  - rewrite (updateHeat_heatingUp now l Hs Hp). cbn zeta.
    destruct (seen_rate l >? rateOnFire l); cbn; auto 10.
  - rewrite (updateHeat_onFire now l Hs Hp). cbn zeta.
    destruct (seen_rate l <? rateOnFire l); cbn; auto 10.
    destruct (int64_add (firePeriod l) (periodsBlazing l) <? Unix now);
      cbn; auto 10.
Qed.

(** ** What [Output] leaves behind *)

Lemma Output_fields (now : Time) (s : string) (l : Logger) :
  state (fst (Output now s l)) = state (updateHeat now l)
  /\ heat (fst (Output now s l)) = heat (updateHeat now l)
  /\ rate (fst (Output now s l)) = rate (updateHeat now l)
  /\ period (fst (Output now s l)) = Unix now
  /\ announce' (fst (Output now s l)) = ""
  /\ buf (fst (Output now s l)) = written now s l.
Proof.
  unfold written. rewrite Output_render, render_eq. cbn.
  repeat split. apply updateHeat_period.
Qed.

Lemma updateHeat_rate (now : Time) (l : Logger) :
  rate (updateHeat now l) = int_add (rate l) 1
  \/ rate (updateHeat now l) = 0.
Proof.
  destruct (Z.eq_dec (Unix now) (period l)) as [Hp | Hp].
  - left. rewrite (updateHeat_same now l Hp). reflexivity.
  - right. apply updateHeat_new_second, Hp.
Qed.

(** ** Invariants of the loggers of [New] *)

Section Reachable.

Variable any : Type.
Variable Sprintf : string -> list any -> string.
Variable Sprint : list any -> string.
Variable Sprintln : list any -> string.

Lemma exec_settled (op : Op any) (l : Logger) :
  consistent l /\ announce' l = "" ->
  consistent (fst (exec any Sprintf Sprint Sprintln op l))
  /\ announce' (fst (exec any Sprintf Sprint Sprintln op l)) = "".
Proof.
  intros [Hc Ha].
  assert (HO : forall now s,
             consistent (fst (Output now s l))
             /\ announce' (fst (Output now s l)) = "").
  { intros now s.
    destruct (Output_fields now s l) as (Hs & Hh & _ & _ & Hb & _).
    split; [| exact Hb].
    pose proof (updateHeat_consistent now l Hc) as Hu.
    unfold consistent in *. rewrite Hs, Hh. exact Hu. }
  destruct op; cbn; try apply HO; split; assumption.
Qed.

Lemma run_settled (ops : list (Op any)) :
  forall l : Logger,
    consistent l /\ announce' l = "" ->
    consistent (run any Sprintf Sprint Sprintln ops l)
    /\ announce' (run any Sprintf Sprint Sprintln ops l) = "".
Proof.
  induction ops as [| op rest IH]; intros l H; [exact H|].
  cbn [run].
  pose proof (exec_settled op l H) as H'.
  destruct (exec any Sprintf Sprint Sprintln op l) as [l' o].
  cbn [fst] in H'.
  destruct o; try (apply IH); exact H'.
Qed.

(** X8: After every sequence of calls of the exported methods on a logger of
    [New], the transform goes with the state ([cold] has none, [coolingDown]
    and [heatingUp] have [heating], [onFire] has [fire] or [blazing]) and no
    banner is pending.  So a banner is written by the very call whose
    evaluation queued it: the line [Output] hands to the destination starts
    with the banner that the [updateHeat] of this call has queued, no banner
    is pending after the call, and a call in the second that is being
    counted, which evaluates nothing, writes no banner. *)
Theorem New_run_settled (w : Writer) (p : string) (ops : list (Op any)) :
  consistent (run any Sprintf Sprint Sprintln ops (New w p))
  /\ valid_state (state (run any Sprintf Sprint Sprintln ops (New w p)))
  /\ announce' (run any Sprintf Sprint Sprintln ops (New w p)) = ""
  /\ (forall (now : Time) (s : string),
        Output_writes now s (run any Sprintf Sprint Sprintln ops (New w p))
          (banner_part
             (announce'
                (updateHeat now
                   (run any Sprintf Sprint Sprintln ops (New w p))))
           ++ message_part
                (heat
                   (updateHeat now
                      (run any Sprintf Sprint Sprintln ops (New w p))))
                true s
           ++ nl_part s)
        /\ announce'
             (fst (Output now s
                     (run any Sprintf Sprint Sprintln ops (New w p)))) = ""
        /\ (Unix now = period (run any Sprintf Sprint Sprintln ops (New w p))
            -> Output_writes now s
                 (run any Sprintf Sprint Sprintln ops (New w p))
                 (message_part
                    (heat (run any Sprintf Sprint Sprintln ops (New w p)))
                    true s
                  ++ nl_part s))).
Proof.
  destruct (run_settled ops (New w p)) as [Hc Ha].
  { split; [left; split|]; reflexivity. }
  assert (Ht : term (run any Sprintf Sprint Sprintln ops (New w p)) = true)
    by (rewrite run_term; reflexivity).
  split; [exact Hc|]. split; [| split; [exact Ha|]].
  - unfold consistent in Hc. unfold valid_state.
    destruct Hc as [[H _] | [[H _] | [[H _] | [H _]]]]; auto.
  - intros now s.
    pose proof (Output_writes_line now s
                  (run any Sprintf Sprint Sprintln ops (New w p))) as W.
    rewrite Ht in W.
    split; [exact W|]. split; [apply Output_fields|].
    intros Hp. rewrite (updateHeat_same now _ Hp) in W. cbn in W.
    rewrite Ha in W. exact W.
Qed.

Lemma exec_rate (op : Op any) (l : Logger) (k : Z) :
  0 <= rate l <= k -> k < 2 ^ 63 - 1 ->
  0 <= rate (fst (exec any Sprintf Sprint Sprintln op l)) <= k + 1.
Proof.
  intros Hr Hk.
  assert (HO : forall now s, 0 <= rate (fst (Output now s l)) <= k + 1).
  { intros now s.
    destruct (Output_fields now s l) as (_ & _ & -> & _).
    destruct (updateHeat_rate now l) as [-> | ->]; [| lia].
    rewrite int_add_no_overflow; unfold in_int64; lia. }
  destruct op; cbn; try apply HO; lia.
Qed.

Lemma run_rate (ops : list (Op any)) :
  forall (l : Logger) (k : Z),
    0 <= rate l <= k ->
    k + Z.of_nat (List.length ops) < 2 ^ 63 ->
    0 <= rate (run any Sprintf Sprint Sprintln ops l)
      <= k + Z.of_nat (List.length ops).
Proof.
  induction ops as [| op rest IH]; intros l k Hr Hk.
  - cbn. lia.
  - cbn [run]. cbn [List.length] in *. rewrite Nat2Z.inj_succ in *.
    pose proof (exec_rate op l k Hr ltac:(lia)) as H.
    destruct (exec any Sprintf Sprint Sprintln op l) as [l' o].
    cbn [fst] in H.
    destruct o; try (specialize (IH l' (k + 1) H ltac:(lia))); lia.
Qed.

(** X9: The count of a logger of [New] is never negative and never more than
    the number of calls made so far, as long as these are fewer than
    [2 ^ 63]: it does not overflow. *)
Theorem New_run_rate (w : Writer) (p : string) (ops : list (Op any)) :
  Z.of_nat (List.length ops) < 2 ^ 63 ->
  0 <= rate (run any Sprintf Sprint Sprintln ops (New w p))
    <= Z.of_nat (List.length ops).
Proof.
  intros H.
  apply (run_rate ops (New w p) 0); [cbn; lia | lia].
Qed.

End Reachable.

Lemma New_run_settled_witness :
  Unix (mkTime 1 7) = period (run string sprintf sprint sprintln session
                                (New (recorder false) ""))
  /\ buf (fst (Output (mkTime 1 7) "f"
                 (run string sprintf sprint sprintln session
                    (New (recorder false) ""))))
     = heating (list_byte_of_string "f") ++ [byte_of_ascii LF]
  /\ has_banner "It's heating up!!! "
       (buf (fst (Output (mkTime 1 0) "a"
                    (run string sprintf sprint sprintln
                       [OpSetHeatingUp string 0]
                       (New (recorder false) "")))))
     = true.
Proof.
  assert (Hp : Unix (mkTime 1 7)
               = period (run string sprintf sprint sprintln session
                           (New (recorder false) ""))) by reflexivity.
  destruct (New_run_settled string sprintf sprint sprintln
              (recorder false) "" session) as (_ & _ & _ & H).
  destruct (H (mkTime 1 7) "f") as (_ & _ & Hs).
  destruct (Hs Hp) as (_ & _ & Hb).
  destruct (New_run_settled string sprintf sprint sprintln
              (recorder false) "" [OpSetHeatingUp string 0])
    as (_ & _ & _ & H').
  destruct (H' (mkTime 1 0) "a") as ((_ & _ & Hb') & _).
  split; [exact Hp|].
  split; [rewrite Hb | rewrite Hb']; reflexivity.
Defined.

Lemma New_run_rate_witness :
  Z.of_nat (List.length session) < 2 ^ 63
  /\ 0 <= rate (run string sprintf sprint sprintln session
                  (New (recorder false) "")) <= 7.
Proof.
  assert (H : Z.of_nat (List.length session) < 2 ^ 63) by reflexivity.
  split; [exact H|].
  exact (New_run_rate string sprintf sprint sprintln (recorder false) ""
           session H).
Defined.

(** ** Lines of one second *)

(** X10: A banner is written once: whatever the logger, a line that follows in
    the same second has no banner part; it is the message, through the
    transform the evaluation chose, and the newline. *)
Theorem banner_not_repeated (now now' : Time) (s s' : string) (l : Logger) :
  Unix now' = Unix now ->
  written now' s' (fst (Output now s l)) =
    message_part (heat (updateHeat now l)) (term l) s' ++ nl_part s'.
Proof.
  intros Hn.
  destruct (Output_fields now s l) as (_ & Hh & _ & Hp & Ha & _).
  rewrite written_eq, updateHeat_same by (rewrite Hp; exact Hn).
  cbn. rewrite Ha, Hh, Output_term. reflexivity.
Qed.

Lemma banner_not_repeated_witness :
  Unix (mkTime 2 900) = Unix (mkTime 2 0)
  /\ has_banner "It's heating up!!! "
       (written (mkTime 2 0) "a" (burst 11 1 "x" fresh)) = true
  /\ written (mkTime 2 900) "b"
       (fst (Output (mkTime 2 0) "a" (burst 11 1 "x" fresh)))
     = heating (list_byte_of_string "b") ++ [byte_of_ascii LF].
Proof.
  assert (Hn : Unix (mkTime 2 900) = Unix (mkTime 2 0)) by reflexivity.
  split; [exact Hn|]. split; [reflexivity|].
  rewrite (banner_not_repeated (mkTime 2 0) (mkTime 2 900) "a" "b"
             (burst 11 1 "x" fresh) Hn).
  reflexivity.
Defined.

(** X11: [Output] starts from an empty buffer: what the scratch buffer held
    before the call has no effect on the call, and after the call it holds
    the line that was written. *)
Theorem Output_clears_buf (now : Time) (s : string) (l : Logger)
  (b : list byte) :
  Output now s (set_buf l b) = Output now s l
  /\ buf (fst (Output now s l)) = written now s l.
Proof.
  split; [reflexivity | apply Output_fields].
Qed.

(** X12: A threshold that is set within a second does not act before the next
    evaluation: a call of [Output] in the second that is being counted writes
    the same line and leaves the same state and transform, whatever
    [SetHeatingUp], [SetOnFire] or [SetBlazing] has just stored. *)
Theorem thresholds_not_retroactive (now : Time) (s : string) (l : Logger)
  (v : Z) :
  Unix now = period l ->
  (written now s (SetHeatingUp v l) = written now s l
   /\ state (fst (Output now s (SetHeatingUp v l))) = state l
   /\ heat (fst (Output now s (SetHeatingUp v l))) = heat l)
  /\ (written now s (SetOnFire v l) = written now s l
      /\ state (fst (Output now s (SetOnFire v l))) = state l
      /\ heat (fst (Output now s (SetOnFire v l))) = heat l)
  /\ (written now s (SetBlazing v l) = written now s l
      /\ state (fst (Output now s (SetBlazing v l))) = state l
      /\ heat (fst (Output now s (SetBlazing v l))) = heat l).
Proof.
  intros Hp.
  assert (G : forall l', period l' = period l -> term l' = term l ->
              state l' = state l -> heat l' = heat l ->
              announce' l' = announce' l ->
              written now s l' = written now s l
              /\ state (fst (Output now s l')) = state l
              /\ heat (fst (Output now s l')) = heat l).
  { intros l' Ep Et Es Eh Ea.
    destruct (Output_fields now s l') as (Hs & Hh & _).
    rewrite Hs, Hh, !written_eq.
    rewrite (updateHeat_same now l') by (rewrite Ep; exact Hp).
    rewrite (updateHeat_same now l Hp). cbn.
    rewrite Et, Es, Eh, Ea. repeat split. }
  repeat apply conj; apply G; reflexivity.
Qed.

Lemma thresholds_not_retroactive_witness :
  Unix (mkTime 1 5) = period (burst 11 1 "x" fresh)
  /\ written (mkTime 1 5) "y" (SetHeatingUp 0 (burst 11 1 "x" fresh))
     = list_byte_of_string "y" ++ [byte_of_ascii LF]
  /\ state (fst (Output (mkTime 2 0) "y"
                   (SetHeatingUp 0 (burst 11 1 "x" fresh)))) = heatingUp.
Proof.
  assert (Hp : Unix (mkTime 1 5) = period (burst 11 1 "x" fresh))
    by reflexivity.
  destruct (thresholds_not_retroactive (mkTime 1 5) "y"
              (burst 11 1 "x" fresh) 0 Hp) as ((H & _) & _).
  split; [exact Hp|]. split; [rewrite H|]; reflexivity.
Defined.

(** X13: After [SetOutput w] the next line goes to [w] and to no other
    destination: [Writer] returns [w], the line is the one the former
    destination would have got, the error is the error of [w], and the
    destination afterwards is [w] after this one write. *)
Theorem SetOutput_redirects (now : Time) (s : string) (l : Logger)
  (w : Writer) :
  WriterOf (SetOutput w l) = w
  /\ written now s (SetOutput w l) = written now s l
  /\ snd (Output now s (SetOutput w l))
     = snd (snd (Write w (written now s l)))
  /\ WriterOf (fst (Output now s (SetOutput w l)))
     = fst (Write w (written now s l)).
Proof.
  unfold WriterOf, SetOutput.
  assert (Hw : written now s (set_out l w) = written now s l).
  { rewrite !written_eq, updateHeat_set_out. reflexivity. }
  split; [reflexivity|]. split; [exact Hw|].
  rewrite Output_render, Hw. split; reflexivity.
Qed.

(** ** The end of a colored line *)

(** X14: With the terminal mode on and one of the three transforms active, the
    transform closes the message with [reset]; for a message that ends in a
    newline the line that is written therefore ends in [reset], with the
    newline of the message before it, and for any other message it ends in
    [reset] and a newline. *)
Theorem colored_line_end (now : Time) (s : string) (l : Logger)
  (h : list byte -> list byte) :
  term l = true ->
  heat (updateHeat now l) = Some h ->
  h = heating \/ h = fire \/ h = blazing ->
  exists body : list byte,
    h (list_byte_of_string s) = body ++ list_byte_of_string reset
    /\ written now s l =
         banner_part (announce' (updateHeat now l))
         ++ body ++ list_byte_of_string reset ++ nl_part s
    /\ (ends_nl s = true ->
        written now s l =
          (banner_part (announce' (updateHeat now l)) ++ body)
          ++ list_byte_of_string reset).
Proof.
  intros Ht Hh Hk.
  assert (E : exists body,
             h (list_byte_of_string s) = body ++ list_byte_of_string reset).
  { destruct Hk as [-> | [-> | ->]].
    - exists (list_byte_of_string yellow ++ list_byte_of_string s).
      rewrite heating_solid. unfold solid. rewrite app_assoc. reflexivity.
    - exists (two_tone red yellow (list_byte_of_string s)).
      apply fire_two_tone.
    - exists (list_byte_of_string red ++ list_byte_of_string s).
      rewrite blazing_solid. unfold solid. rewrite app_assoc. reflexivity. }
  destruct E as (body & E). exists body.
  assert (W : written now s l =
              banner_part (announce' (updateHeat now l))
              ++ body ++ list_byte_of_string reset ++ nl_part s).
  { rewrite written_eq, Hh, Ht. unfold message_part. rewrite E.
    rewrite <- !app_assoc. reflexivity. }
  split; [exact E|]. split; [exact W|].
  intros Hn. rewrite W. unfold nl_part.
  rewrite needs_nl_ends_nl, Hn. cbn [negb].
  rewrite app_nil_r, <- app_assoc. reflexivity.
Qed.

Lemma colored_line_end_witness :
  (term warm = true
   /\ heat (updateHeat (mkTime 2 1) warm) = Some heating
   /\ ends_nl (String "x" (String LF "")) = true)
  /\ written (mkTime 2 1) (String "x" (String LF "")) warm
     = list_byte_of_string yellow
       ++ list_byte_of_string (String "x" (String LF ""))
       ++ list_byte_of_string reset.
Proof.
  assert (Hh : heat (updateHeat (mkTime 2 1) warm) = Some heating)
    by reflexivity.
  destruct (colored_line_end (mkTime 2 1) (String "x" (String LF "")) warm
              heating eq_refl Hh (or_introl eq_refl))
    as (body & E & _ & H).
  split; [repeat split; assumption|].
  rewrite (H eq_refl), <- app_assoc, <- E. reflexivity.
Defined.

(** ** Degenerate thresholds *)

(** X15: Thresholds are taken as they are.  With a count that is not negative and
    does not overflow, an evaluation sees at least one line; so with
    [rateHeatingUp <= 0] every evaluation leaves [cold], with
    [rateOnFire <= 0] every evaluation leaves [heatingUp] for [onFire], and
    with [rateOnFire <= 1] no evaluation leaves [onFire]. *)
Theorem nonpositive_thresholds (now : Time) (l : Logger) :
  Unix now <> period l ->
  0 <= rate l < 2 ^ 63 - 1 ->
  (state l = cold -> rateHeatingUp l <= 0 ->
   state (updateHeat now l) = heatingUp)
  /\ (state l = heatingUp -> rateOnFire l <= 0 ->
      state (updateHeat now l) = onFire)
  /\ (state l = onFire -> rateOnFire l <= 1 ->
      state (updateHeat now l) = onFire).
Proof.
  intros Hp Hr.
  assert (Hseen : seen_rate l = rate l + 1).
  { unfold seen_rate. apply int_add_no_overflow; unfold in_int64; lia. }
  repeat split; intros Hs Ht.
  - rewrite (updateHeat_cold now l Hs Hp). cbn zeta.
    destruct (Z.gtb_spec (seen_rate l) (rateHeatingUp l)); [reflexivity | lia].
  - rewrite (updateHeat_heatingUp now l Hs Hp). cbn zeta.
    destruct (Z.gtb_spec (seen_rate l) (rateOnFire l)); [reflexivity | lia].
  - rewrite (updateHeat_onFire now l Hs Hp). cbn zeta.
    destruct (Z.ltb_spec (seen_rate l) (rateOnFire l)); [lia|].
    destruct (int64_add (firePeriod l) (periodsBlazing l) <? Unix now);
      cbn; exact Hs.
Qed.

Lemma nonpositive_thresholds_witness :
  (Unix (mkTime 1 0) <> period (SetHeatingUp 0 fresh)
   /\ 0 <= rate (SetHeatingUp 0 fresh) < 2 ^ 63 - 1
   /\ state (SetHeatingUp 0 fresh) = cold
   /\ rateHeatingUp (SetHeatingUp 0 fresh) <= 0)
  /\ state (updateHeat (mkTime 1 0) (SetHeatingUp 0 fresh)) = heatingUp.
Proof.
  assert (Hp : Unix (mkTime 1 0) <> period (SetHeatingUp 0 fresh))
    by (vm_compute; discriminate).
  assert (Hr : 0 <= rate (SetHeatingUp 0 fresh) < 2 ^ 63 - 1)
    by (vm_compute; intuition discriminate).
  assert (Ht : rateHeatingUp (SetHeatingUp 0 fresh) <= 0)
    by (vm_compute; discriminate).
  destruct (nonpositive_thresholds (mkTime 1 0) (SetHeatingUp 0 fresh)
              Hp Hr) as (H & _).
  split; [repeat split; try assumption; apply Hr|].
  exact (H eq_refl Ht).
Defined.

(** ** Counting the lines of a second *)

Lemma Output_same_second (now : Time) (s : string) (l : Logger) :
  Unix now = period l ->
  state (fst (Output now s l)) = state l
  /\ heat (fst (Output now s l)) = heat l
  /\ period (fst (Output now s l)) = period l
  /\ firePeriod (fst (Output now s l)) = firePeriod l
  /\ rateHeatingUp (fst (Output now s l)) = rateHeatingUp l
  /\ rateOnFire (fst (Output now s l)) = rateOnFire l
  /\ periodsBlazing (fst (Output now s l)) = periodsBlazing l
  /\ rate (fst (Output now s l)) = int_add (rate l) 1.
Proof.
  intros Hp. rewrite Output_render, render_eq, (updateHeat_same now l Hp).
  cbn. repeat split.
Qed.

Lemma feed_same_second (calls : list (Time * string)) :
  forall l : Logger,
    Forall (fun c => Unix (fst c) = period l) calls ->
    0 <= rate l ->
    rate l + Z.of_nat (List.length calls) < 2 ^ 63 ->
    state (feed calls l) = state l
    /\ heat (feed calls l) = heat l
    /\ period (feed calls l) = period l
    /\ firePeriod (feed calls l) = firePeriod l
    /\ rateHeatingUp (feed calls l) = rateHeatingUp l
    /\ rateOnFire (feed calls l) = rateOnFire l
    /\ periodsBlazing (feed calls l) = periodsBlazing l
    /\ rate (feed calls l) = rate l + Z.of_nat (List.length calls).
Proof.
  induction calls as [| [now s] rest IH]; intros l Hall Hr Hn.
  - cbn. repeat split. lia.
  - cbn [feed]. cbn [List.length] in *. rewrite Nat2Z.inj_succ in *.
    inversion Hall as [| c cs Hc Hrest]; subst. cbn [fst] in Hc.
    destruct (Output_same_second now s l Hc)
      as (Hs & Hh & Hp & Hf & Hu & Ho & Hb & Hrate).
    rewrite int_add_no_overflow in Hrate by (unfold in_int64; lia).
    destruct (IH (fst (Output now s l)))
      as (I1 & I2 & I3 & I4 & I5 & I6 & I7 & I8).
    + rewrite Hp. exact Hrest.
    + lia.
    + lia.
    + rewrite I1, I2, I3, I4, I5, I6, I7, I8, Hs, Hh, Hp, Hf, Hu, Ho, Hb,
        Hrate.
      repeat split. lia.
Qed.

(** X16: Calls of [Output] in the second that is being counted only count:
    after [n] of them state, transform, [period] and [firePeriod] are as
    before and the count is [n] more (short of the overflow of [int]). *)
Theorem same_second_feed (calls : list (Time * string)) :
  forall l : Logger,
    Forall (fun c => Unix (fst c) = period l) calls ->
    0 <= rate l ->
    rate l + Z.of_nat (List.length calls) < 2 ^ 63 ->
    state (feed calls l) = state l
    /\ heat (feed calls l) = heat l
    /\ period (feed calls l) = period l
    /\ firePeriod (feed calls l) = firePeriod l
    /\ rateHeatingUp (feed calls l) = rateHeatingUp l
    /\ rateOnFire (feed calls l) = rateOnFire l
    /\ periodsBlazing (feed calls l) = periodsBlazing l
    /\ rate (feed calls l) = rate l + Z.of_nat (List.length calls).
Proof. exact (feed_same_second calls). Qed.

Lemma same_second_feed_witness :
  (Forall (fun c => Unix (fst c) = period burning)
     [(mkTime 3 10, "a"); (mkTime 3 20, "b")]
   /\ 0 <= rate burning
   /\ rate burning + 2 < 2 ^ 63)
  /\ state (feed [(mkTime 3 10, "a"); (mkTime 3 20, "b")] burning) = onFire
  /\ rate (feed [(mkTime 3 10, "a"); (mkTime 3 20, "b")] burning) = 21.
Proof.
  assert (Ha : Forall (fun c => Unix (fst c) = period burning)
                 [(mkTime 3 10, "a"); (mkTime 3 20, "b")])
    by (repeat constructor).
  assert (Hr : 0 <= rate burning) by (vm_compute; discriminate).
  assert (Hn : rate burning
               + Z.of_nat (List.length
                             [(mkTime 3 10, "a"); (mkTime 3 20, "b")])
               < 2 ^ 63) by reflexivity.
  destruct (same_second_feed [(mkTime 3 10, "a"); (mkTime 3 20, "b")]
              burning Ha Hr Hn) as (H1 & _ & _ & _ & _ & _ & _ & H7).
  split; [repeat split; assumption|].
  split; [rewrite H1 | rewrite H7]; reflexivity.
Defined.

(** X17: How many lines heat a cold logger up: after [n] more lines in the
    second that is being counted, the first line of another second takes
    [cold] to [heatingUp] exactly when the count before, [n] and that line
    together are more than [rateHeatingUp]. *)
Theorem lines_that_heat_up (calls : list (Time * string)) (now : Time)
  (s : string) (l : Logger) :
  state l = cold ->
  Forall (fun c => Unix (fst c) = period l) calls ->
  Unix now <> period l ->
  0 <= rate l ->
  rate l + Z.of_nat (List.length calls) + 1 < 2 ^ 63 ->
  (state (fst (Output now s (feed calls l))) = heatingUp
   <-> rate l + Z.of_nat (List.length calls) + 1 > rateHeatingUp l).
Proof.
  intros Hs Hall Hp Hr Hn.
  destruct (feed_same_second calls l Hall Hr ltac:(lia))
    as (F1 & _ & F3 & _ & F5 & _ & _ & F7).
  destruct (Output_fields now s (feed calls l)) as (-> & _).
  assert (Hseen : seen_rate (feed calls l)
                  = rate l + Z.of_nat (List.length calls) + 1).
  { unfold seen_rate. rewrite F7.
    apply int_add_no_overflow; unfold in_int64; lia. }
  assert (Hs' : state (feed calls l) = cold) by (rewrite F1; exact Hs).
  assert (Hp' : Unix now <> period (feed calls l))
    by (rewrite F3; exact Hp).
  rewrite (updateHeat_cold now (feed calls l) Hs' Hp'). cbn zeta.
  rewrite Hseen, F5.
  destruct (Z.gtb_spec (rate l + Z.of_nat (List.length calls) + 1)
              (rateHeatingUp l)) as [G | G]; cbn; rewrite ?Hs'.
  - split; [intros _; lia | reflexivity].
  - split; [discriminate | lia].
Qed.

Lemma lines_that_heat_up_witness :
  (state (burst 1 1 "x" fresh) = cold
   /\ Forall (fun c => Unix (fst c) = period (burst 1 1 "x" fresh))
        (repeat (mkTime 1 0, "y") 10)
   /\ Unix (mkTime 2 0) <> period (burst 1 1 "x" fresh)
   /\ 0 <= rate (burst 1 1 "x" fresh))
  /\ state (fst (Output (mkTime 2 0) "z"
                   (feed (repeat (mkTime 1 0, "y") 10)
                      (burst 1 1 "x" fresh)))) = heatingUp.
Proof.
  assert (Ha : Forall (fun c => Unix (fst c) = period (burst 1 1 "x" fresh))
                 (repeat (mkTime 1 0, "y") 10))
    by (repeat constructor).
  assert (Hp : Unix (mkTime 2 0) <> period (burst 1 1 "x" fresh))
    by (vm_compute; discriminate).
  assert (Hr : 0 <= rate (burst 1 1 "x" fresh))
    by (vm_compute; discriminate).
  assert (Hn : rate (burst 1 1 "x" fresh)
               + Z.of_nat (List.length (repeat (mkTime 1 0, "y") 10)) + 1
               < 2 ^ 63) by reflexivity.
  split; [repeat split; assumption|].
  apply (lines_that_heat_up (repeat (mkTime 1 0, "y") 10) (mkTime 2 0) "z"
           (burst 1 1 "x" fresh) eq_refl Ha Hp Hr Hn).
  reflexivity.
Defined.

(** ** The size and the content of a transformed message *)

Lemma length_list_byte_of_string (s : string) :
  List.length (list_byte_of_string s) = String.length s.
Proof.
  unfold list_byte_of_string. rewrite length_map.
  induction s as [| c s IH]; [reflexivity | cbn; rewrite IH; reflexivity].
Qed.

Lemma length_two_tone (txt : list byte) :
  forall c0 c1 : string,
    String.length c0 = String.length c1 ->
    List.length (two_tone c0 c1 txt)
    = (List.length txt * S (String.length c0))%nat.
Proof.
  induction txt as [| c rest IH]; intros c0 c1 E; [reflexivity|].
  cbn [two_tone List.length]. rewrite length_app. cbn [List.length].
  rewrite (IH c1 c0 (eq_sym E)), length_list_byte_of_string, E. lia.
Qed.

(** X18: What a transform adds: [heating] and [blazing] add 11 bytes to a
    message, [announce] adds 11 bytes to a banner, and [fire] writes 8 bytes
    for every byte of the message and 4 more, so only [reset] for the empty
    message. *)
Theorem transform_lengths (txt : list byte) (a : string) :
  List.length (heating txt) = (List.length txt + 11)%nat
  /\ List.length (blazing txt) = (List.length txt + 11)%nat
  /\ List.length (fire txt) = (8 * List.length txt + 4)%nat
  /\ List.length (announce a) = (String.length a + 11)%nat.
Proof.
  rewrite heating_solid, blazing_solid, fire_two_tone.
  unfold solid, announce, WriteString.
  rewrite !length_app, !length_list_byte_of_string.
  rewrite (length_two_tone txt red yellow eq_refl).
  cbn [String.length red yellow reset announcement List.length].
  repeat split; lia.
Qed.

Lemma two_tone_inj (a : list byte) :
  forall (b : list byte) (c0 c1 : string),
    String.length c0 = String.length c1 ->
    two_tone c0 c1 a = two_tone c0 c1 b -> a = b.
Proof.
  induction a as [| x a IH]; intros [| y b] c0 c1 E H.
  - reflexivity.
  - apply (f_equal (@List.length byte)) in H.
    cbn [two_tone List.length] in H. rewrite length_app in H.
    cbn [List.length] in H. lia.
  - apply (f_equal (@List.length byte)) in H.
    cbn [two_tone List.length] in H. rewrite length_app in H.
    cbn [List.length] in H. lia.
  - cbn [two_tone] in H. apply app_inv_head in H.
    injection H as -> H. f_equal. exact (IH b c1 c0 (eq_sym E) H).
Qed.

(** X19: No transform loses a byte of the message: each of [heating], [fire]
    and [blazing] gives different outputs for different messages. *)
Theorem transforms_injective (a b : list byte) :
  (heating a = heating b -> a = b)
  /\ (fire a = fire b -> a = b)
  /\ (blazing a = blazing b -> a = b).
Proof.
  rewrite (heating_solid a), (heating_solid b), (blazing_solid a),
    (blazing_solid b), (fire_two_tone a), (fire_two_tone b).
  unfold solid.
  repeat split; intros H.
  - apply app_inv_head in H. apply app_inv_tail in H. exact H.
  - apply app_inv_tail in H. exact (two_tone_inj a b red yellow eq_refl H).
  - apply app_inv_head in H. apply app_inv_tail in H. exact H.
Qed.

Lemma transforms_injective_witness :
  fire (list_byte_of_string "ab") = fire (list_byte_of_string "ab")
  /\ list_byte_of_string "ab" = list_byte_of_string "ab".
Proof.
  assert (H : fire (list_byte_of_string "ab")
              = fire (list_byte_of_string "ab")) by reflexivity.
  split; [exact H|].
  destruct (transforms_injective (list_byte_of_string "ab")
              (list_byte_of_string "ab")) as (_ & F & _).
  exact (F H).
Defined.

(** ** The banner of the sustained fire, second after second *)

(** X20: Once an evaluation has found the fire sustained, every later second
    finds it sustained again, if only the second before had at least
    [rateOnFire] lines: after the line of that evaluation and [n] more
    lines in its second, with [n + 1 >= rateOnFire], the condition holds in
    any later second, and its first line carries the banner again. *)
Theorem blazing_persists (now now2 : Time) (s s2 : string)
  (calls : list (Time * string)) (l : Logger) :
  blazing_condition now l ->
  Forall (fun c => Unix (fst c) = Unix now) calls ->
  Z.of_nat (List.length calls) + 1 < 2 ^ 63 ->
  Z.of_nat (List.length calls) + 1 >= rateOnFire l ->
  Unix now < Unix now2 ->
  blazing_condition now2 (feed calls (fst (Output now s l)))
  /\ written now2 s2 (feed calls (fst (Output now s l))) =
       announce "Boomshakalaka!!! "
       ++ message_part (Some blazing) (term l) s2 ++ nl_part s2.
Proof.
  intros Hb Hall Hn Hr Hlt.
  pose proof (updateHeat_blazing now l Hb) as U.
  destruct (Output_fields now s l) as (Hs & _ & Hrate & Hp & _ & _).
  assert (O : fst (Output now s l) =
              set_out (render now s l)
                (fst (Write (out l) (written now s l))))
    by (rewrite Output_render; reflexivity).
  rewrite render_eq, U in O.
  assert (Hfp : firePeriod (fst (Output now s l)) = firePeriod l)
    by (rewrite O; reflexivity).
  assert (Hpb : periodsBlazing (fst (Output now s l)) = periodsBlazing l)
    by (rewrite O; reflexivity).
  assert (Hof : rateOnFire (fst (Output now s l)) = rateOnFire l)
    by (rewrite O; reflexivity).
  assert (Hst : state (fst (Output now s l)) = onFire)
    by (rewrite O; cbn; apply Hb).
  assert (Hr0 : rate (fst (Output now s l)) = 0)
    by (rewrite O; reflexivity).
  assert (Htm : term (fst (Output now s l)) = term l)
    by apply Output_term.
  destruct (feed_same_second calls (fst (Output now s l)))
    as (F1 & _ & F3 & F4 & _ & F6 & F7 & F8).
  { rewrite Hp. exact Hall. }
  { lia. }
  { lia. }
  assert (B : blazing_condition now2 (feed calls (fst (Output now s l)))).
  { unfold blazing_condition, seen_rate.
    rewrite F1, F3, F4, F6, F7, F8, Hst, Hp, Hfp, Hpb, Hof, Hr0.
    rewrite int_add_no_overflow by (unfold in_int64; lia).
    destruct Hb as (_ & _ & _ & Hb). repeat split; lia. }
  split; [exact B|].
  rewrite written_eq, (updateHeat_blazing now2 _ B). cbn.
  assert (T : term (feed calls (fst (Output now s l))) = term l).
  { rewrite <- Htm. clear. generalize (fst (Output now s l)).
    induction calls as [| [n c] rest IH]; intros l0; [reflexivity|].
    cbn [feed]. rewrite IH. apply Output_term. }
  rewrite T. reflexivity.
Qed.

Lemma blazing_persists_witness :
  (blazing_condition (mkTime 9 0) ablaze
   /\ Forall (fun c => Unix (fst c) = Unix (mkTime 9 0))
        (repeat (mkTime 9 0, "x") 19)
   /\ Z.of_nat (List.length (repeat (mkTime 9 0, "x") 19)) + 1
      >= rateOnFire ablaze
   /\ Unix (mkTime 9 0) < Unix (mkTime 12 0))
  /\ has_banner "Boomshakalaka!!! "
       (written (mkTime 12 0) "y"
          (feed (repeat (mkTime 9 0, "x") 19)
             (fst (Output (mkTime 9 0) "x" ablaze)))) = true.
Proof.
  assert (Hb : blazing_condition (mkTime 9 0) ablaze)
    by (vm_compute; intuition discriminate).
  assert (Ha : Forall (fun c => Unix (fst c) = Unix (mkTime 9 0))
                 (repeat (mkTime 9 0, "x") 19))
    by (repeat constructor).
  assert (Hn : Z.of_nat (List.length (repeat (mkTime 9 0, "x") 19)) + 1
               < 2 ^ 63) by reflexivity.
  assert (Hr : Z.of_nat (List.length (repeat (mkTime 9 0, "x") 19)) + 1
               >= rateOnFire ablaze) by (vm_compute; discriminate).
  assert (Hl : Unix (mkTime 9 0) < Unix (mkTime 12 0)) by reflexivity.
  destruct (blazing_persists (mkTime 9 0) (mkTime 12 0) "x" "y"
              (repeat (mkTime 9 0, "x") 19) ablaze Hb Ha Hn Hr Hl)
    as [_ H].
  split; [exact (conj Hb (conj Ha (conj Hr Hl)))|].
  rewrite H. reflexivity.
Defined.

(** ** What only the setters change *)

(** X21: [Output] changes no setting: the thresholds, the prefix and the
    terminal mode after a call are those before it, whatever the heat
    machine does. *)
Theorem Output_keeps_settings (now : Time) (s : string) (l : Logger) :
  rateHeatingUp (fst (Output now s l)) = rateHeatingUp l
  /\ rateOnFire (fst (Output now s l)) = rateOnFire l
  /\ periodsBlazing (fst (Output now s l)) = periodsBlazing l
  /\ Prefix (fst (Output now s l)) = Prefix l
  /\ term (fst (Output now s l)) = term l.
Proof.
  unfold Prefix. rewrite Output_render, render_eq. cbn.
  unfold updateHeat. cbn. heat_branches; repeat split.
Qed.
